(** * SQLiteModernCpp: the handle wrappers of [SQLite.h]

    A shallow embedding of [src/SQLiteModernCpp/SQLite.h]: the connection,
    statement, reader, row-iterator and backup wrappers over the native
    engine's C interface.

    - The native engine ([sqlite3_*]) is external: it is an interface
      ([Engine]) over an opaque engine state, and every theorem holds for
      every engine.  Each native call is recorded in a trace, so that the
      order of calls can be stated.
    - C++ control flow is a state monad with four outcomes: a value, a
      thrown [SQLiteException], [std::terminate] (an exception leaving a
      [noexcept] function) and undefined behaviour (a null or dangling
      pointer dereferenced).
    - [this] is part of the state of a mutating member function, so the
      object is still there to look at when the function throws.
    - The build modelled is the one without [_DEBUG]: [VERIFY_] is the bare
      expression and [ASSERT] checks nothing. *)

From Stdlib Require Import ZArith Lia Bool.
From stdpp Require Import base option list gmap strings.

Local Open Scope Z_scope.

(** ** Machine integers and platform constants *)

(** Conversion to [int32_t]: the value modulo 2^32, in the signed range. *)
Definition to_int32 (z : Z) : Z := (z + 2 ^ 31) mod 2 ^ 32 - 2 ^ 31.

(** What the language leaves to the platform: the width of [size_t] and
    [sizeof(wchar_t)] (2 where [wchar_t] is a UTF-16 code unit, 4 where it
    is a UTF-32 one).  [sizeof(char8_t)] is 1 and [sizeof(char16_t)] is 2
    everywhere. *)
Class Platform := {
  size_t_bits : Z;
  sizeof_wchar_t : Z
}.

Definition sizeof_char8_t : Z := 1.
Definition sizeof_char16_t : Z := 2.

(** Conversion to [size_t]. *)
Definition to_size_t `{Platform} (z : Z) : Z := z mod 2 ^ size_t_bits.

(** ** The engine's constants ([sqlite3.h]) *)

Definition SQLITE_OK : Z := 0.
Definition SQLITE_ROW : Z := 100.
Definition SQLITE_DONE : Z := 101.

(** The destructor argument of the text binders. *)
Inductive Destructor := SQLITE_STATIC | SQLITE_TRANSIENT.

(** A native pointer is an address; [nullptr] is 0. *)
Definition ptr : Type := Z.
Definition nullptr : ptr := 0.

(** A pointer to text is modelled by the array it points to: the size of
    one element and the elements up to the terminator.  The engine is given
    this array as it is (through [char const*] or [void const*]); how it
    reads it is its own business. *)
Record Buffer := { unit_size : Z; units : list Z }.

(** What a native bind call is given: [sqlite3_bind_int],
    [sqlite3_bind_double] (a double is its 64 bits), [sqlite3_bind_text] and
    [sqlite3_bind_text16] with the text, the byte count and the destructor. *)
Inductive BindArg :=
| bind_int (value : Z)
| bind_double (value : Z)
| bind_text (value : Buffer) (size : Z) (d : Destructor)
| bind_text16 (value : Buffer) (size : Z) (d : Destructor).

(** ** The native engine *)

(** The native calls the wrappers make, with their arguments. *)
Inductive Event :=
| ev_open (filename : Buffer)
| ev_open16 (filename : Buffer)
| ev_close (db : ptr)
| ev_extended_errcode (db : ptr)
| ev_errmsg (db : ptr)
| ev_last_insert_rowid (db : ptr)
| ev_prepare_v2 (db : ptr) (text : Buffer) (nbyte : Z)
| ev_prepare16_v2 (db : ptr) (text : Buffer) (nbyte : Z)
| ev_finalize (stmt : ptr)
| ev_step (stmt : ptr)
| ev_reset (stmt : ptr)
| ev_db_handle (stmt : ptr)
| ev_bind (stmt : ptr) (index : Z) (arg : BindArg)
| ev_backup_init (dst : ptr) (dst_name : Buffer) (src : ptr) (src_name : Buffer)
| ev_backup_step (backup : ptr) (pages : Z)
| ev_backup_finish (backup : ptr).

(** The engine over its own state [E].  A call that has an out-parameter
    returns what the engine stores through it next to the status.  The
    column accessors and the error queries read the state; a double is its
    64 bits and a blob the bytes its pointer refers to. *)
Class Engine (E : Type) := {
  sqlite3_open : Buffer → E → Z * ptr * E;
  sqlite3_open16 : Buffer → E → Z * ptr * E;
  sqlite3_close : ptr → E → Z * E;
  sqlite3_extended_errcode : ptr → E → Z;
  sqlite3_errmsg : ptr → E → string;
  sqlite3_last_insert_rowid : ptr → E → Z;
  sqlite3_prepare_v2 : ptr → Buffer → Z → E → Z * ptr * E;
  sqlite3_prepare16_v2 : ptr → Buffer → Z → E → Z * ptr * E;
  sqlite3_finalize : ptr → E → Z * E;
  sqlite3_step : ptr → E → Z * E;
  sqlite3_reset : ptr → E → Z * E;
  sqlite3_db_handle : ptr → E → ptr;
  sqlite3_bind : ptr → Z → BindArg → E → Z * E;
  sqlite3_backup_init : ptr → Buffer → ptr → Buffer → E → ptr * E;
  sqlite3_backup_step : ptr → Z → E → Z * E;
  sqlite3_backup_finish : ptr → E → Z * E;
  sqlite3_column_int : ptr → Z → E → Z;
  sqlite3_column_int64 : ptr → Z → E → Z;
  sqlite3_column_double : ptr → Z → E → Z;
  sqlite3_column_blob : ptr → Z → E → list Z;
  sqlite3_column_text : ptr → Z → E → Buffer;
  sqlite3_column_text16 : ptr → Z → E → Buffer;
  sqlite3_column_bytes : ptr → Z → E → Z;
  sqlite3_column_bytes16 : ptr → Z → E → Z;
  sqlite3_column_type : ptr → Z → E → Z
}.

(** The engine's state and the native calls made so far, oldest first. *)
Record World (E : Type) := { engine : E; trace : list Event }.
Arguments engine {E} _.
Arguments trace {E} _.

(** ** Exceptions and outcomes *)

Record SQLiteException := { ErrorCode : Z; ErrorMessage : string }.

Inductive Outcome (A : Type) : Type :=
| Return (a : A)
| Throw (e : SQLiteException)
| Terminate
| Undefined.
Arguments Return {A} a.
Arguments Throw {A} e.
Arguments Terminate {A}.
Arguments Undefined {A}.

(** A computation over the state [S]. *)
Definition M (S A : Type) : Type := S → Outcome A * S.

Definition ret {S A} (a : A) : M S A := fun s => (Return a, s).

Definition bind {S A B} (m : M S A) (k : A → M S B) : M S B :=
  fun s =>
    match m s with
    | (Return a, s') => k a s'
    | (Throw e, s') => (Throw e, s')
    | (Terminate, s') => (Terminate, s')
    | (Undefined, s') => (Undefined, s')
    end.

Definition throw {S A} (e : SQLiteException) : M S A := fun s => (Throw e, s).
Definition undefined {S A} : M S A := fun s => (Undefined, s).
Definition get {S} : M S S := fun s => (Return s, s).
Definition put {S} (s : S) : M S unit := fun _ => (Return tt, s).

Declare Scope cpp_scope.
Delimit Scope cpp_scope with cpp.
Notation "x <- m ;; k" := (bind m (fun x => k))
  (at level 100, m at next level, right associativity) : cpp_scope.
Notation "m ;; k" := (bind m (fun _ => k))
  (at level 100, right associativity) : cpp_scope.
Local Open Scope cpp_scope.

(** A function declared [noexcept]: an exception that would leave it calls
    [std::terminate]. *)
Definition noexcept {S A} (m : M S A) : M S A :=
  fun s =>
    match m s with
    | (Throw _, s') => (Terminate, s')
    | r => r
    end.

(** Run a computation on a part of the state. *)
Definition zoom {S T A} (proj : S → T) (inj : T → S → S) (m : M T A) : M S A :=
  fun s => let (o, t) := m (proj s) in (o, inj t s).

(** A computation on the object in front of the state. *)
Definition on_self {X S A} (m : M X A) : M (X * S) A :=
  zoom fst (fun x s => (x, snd s)) m.

(** A computation on the state behind the object in front. *)
Definition behind {X S A} (m : M S A) : M (X * S) A :=
  zoom snd (fun r s => (fst s, r)) m.

(** Run a member function on the object [x]; the value comes with the
    object as the call left it. *)
Definition with_object {X S A} (x : X) (m : M (X * S) A) : M S (A * X) :=
  fun s =>
    match m (x, s) with
    | (Return a, xs) => (Return (a, fst xs), snd xs)
    | (Throw e, xs) => (Throw e, snd xs)
    | (Terminate, xs) => (Terminate, snd xs)
    | (Undefined, xs) => (Undefined, snd xs)
    end.

(** A block with a local object: [body] runs with the local in front of
    the state, and the local's destructor runs when the block is left, by
    its end or by an exception.  Destructors are [noexcept]. *)
Definition scoped {S L A} (init : L) (destroy : M (L * S) unit)
    (body : M (L * S) A) : M S A :=
  fun s =>
    match body (init, s) with
    | (Return a, ls) =>
        match noexcept destroy ls with
        | (Return _, ls') => (Return a, snd ls')
        | (Throw _, ls') => (Terminate, snd ls')
        | (Terminate, ls') => (Terminate, snd ls')
        | (Undefined, ls') => (Undefined, snd ls')
        end
    | (Throw e, ls) =>
        match noexcept destroy ls with
        | (Return _, ls') => (Throw e, snd ls')
        | (Throw _, ls') => (Terminate, snd ls')
        | (Terminate, ls') => (Terminate, snd ls')
        | (Undefined, ls') => (Undefined, snd ls')
        end
    | (Terminate, ls) => (Terminate, snd ls)
    | (Undefined, ls) => (Undefined, snd ls)
    end.

(** ** Native calls, recorded *)

(** A state that holds the world: the world itself, or objects in front of
    such a state. *)
Class HasWorld (E S : Type) := {
  the_world : S → World E;
  set_world : World E → S → S
}.

#[global] Instance world_itself E : HasWorld E (World E) :=
  {| the_world w := w; set_world w _ := w |}.

#[global] Instance world_behind E X S `{HasWorld E S} : HasWorld E (X * S) :=
  {| the_world s := the_world (snd s);
     set_world w s := (fst s, set_world w (snd s)) |}.

(** A computation on the world, run in a state that holds it. *)
Definition lift {E S A} `{HasWorld E S} (m : M (World E) A) : M S A :=
  zoom the_world set_world m.

Section Native.
Context {E : Type} {N : Engine E}.

(** A native call that changes the engine's state. *)
Definition call {A} (ev : Event) (f : E → A * E) : M (World E) A :=
  fun w =>
    let (a, e) := f (engine w) in
    (Return a, {| engine := e; trace := trace w ++ [ev] |}).

(** A native call that reads the engine's state. *)
Definition query {A} (ev : Event) (f : E → A) : M (World E) A :=
  call ev (fun e => (f e, e)).

(** [SQLiteException(connection)]: the members are initialised in their
    order of declaration, the code first. *)
Definition SQLiteException_from (connection : ptr) : M (World E) SQLiteException :=
  code <- query (ev_extended_errcode connection) (sqlite3_extended_errcode connection);;
  message <- query (ev_errmsg connection) (sqlite3_errmsg connection);;
  ret {| ErrorCode := code; ErrorMessage := message |}.

(** [throw SQLiteException(connection)]. *)
Definition throw_from {A} (connection : ptr) : M (World E) A :=
  e <- SQLiteException_from connection;;
  throw e.

End Native.

(** ** The resource handle ([Handle.h]) *)

Module SQLiteHandle.

(** Modelled from the spec: [Handle.h] is not among the sources.  A handle
    "holds at most one native pointer of a kind-specific type; states
    Empty, Owning"; here Empty is the null pointer. *)
Record t := { m_value : ptr }.

(** Modelled from the spec: the closing strategy of [Handle.h], "the
    per-kind close operation is supplied as a strategy". *)
Record Traits (E : Type) := { Close : ptr → M (World E) unit }.
Arguments Close {E} _ _.

(** Modelled from the spec: the Empty handle of [Handle.h]. *)
Definition Empty : t := {| m_value := nullptr |}.

(** Modelled from the spec: [Get] of [Handle.h], "returns the current
    native pointer or null if Empty". *)
Definition Get (h : t) : ptr := m_value h.

(** Modelled from the spec: the boolean conversion of [Handle.h], "Empty
    handles ... convert to a false boolean". *)
Definition to_bool (h : t) : bool := negb (m_value h =? nullptr).

(** Modelled from the spec: [Set] of [Handle.h], "yields a writable slot
    for a native-call-out-parameter to populate"; [value] is what the
    native call stores through the slot. *)
Definition Set_ (value : ptr) : M t unit := put {| m_value := value |}.

(** Modelled from the spec: [Reset] of [Handle.h], "closes and clears if
    Owning, no-op if Empty". *)
Definition Reset {E S} `{HasWorld E S} (T : Traits E) : M (t * S) unit :=
  h <- on_self get;;
  if to_bool h then
    lift (Close T (m_value h));;
    on_self (put Empty)
  else ret tt.

(** Modelled from the spec: the destructor of [Handle.h], "on
    Owning→destroyed, the kind-specific close operation runs exactly
    once". *)
Definition destroy {E S} `{HasWorld E S} (T : Traits E) : M (t * S) unit :=
  h <- on_self get;;
  if to_bool h then lift (Close T (m_value h)) else ret tt.

(** Modelled from the spec: the move constructor of [Handle.h],
    "move-construction ... transfer[s] ownership and leave[s] the source
    Empty".  The state is the source; the value is the new handle. *)
Definition move_construct : M t t :=
  other <- get;;
  put Empty;;
  ret {| m_value := m_value other |}.

(** Modelled from the spec: move assignment of [Handle.h],
    "move-assignment transfer[s] ownership and leave[s] the source Empty";
    what the target owned is closed first, as by [Reset].  The state is the
    target, then the source, then the rest. *)
Definition move_assign {E S} `{HasWorld E S} (T : Traits E) : M (t * (t * S)) unit :=
  Reset T;;
  other <- behind (on_self move_construct);;
  on_self (put other).

(** Modelled from the spec: [swap] of [Handle.h], which [InternalOpen] uses
    to exchange the pointers of two handles. *)
Definition swap : M (t * t) unit :=
  s <- get;;
  put (snd s, fst s).

End SQLiteHandle.

(** ** Connections *)

Module SQLiteConnection.

Record t := { m_Handle : SQLiteHandle.t }.

(** [SQLiteConnection() noexcept = default]. *)
Definition default : t := {| m_Handle := SQLiteHandle.Empty |}.

(** A computation on the handle of the connection in front of the state. *)
Definition on_handle {S A} (m : M (SQLiteHandle.t * S) A) : M (t * S) A :=
  zoom (fun s => (m_Handle (fst s), snd s))
       (fun r _ => ({| m_Handle := fst r |}, snd r)) m.

Section WithEngine.
Context {E : Type} {N : Engine E}.

(** [SQLiteConnectionHandleTraits]: [VERIFY_(SQLITE_OK, sqlite3_close(value))]
    is the bare call where [_DEBUG] is not defined. *)
Definition SQLiteConnectionHandleTraits : SQLiteHandle.Traits E :=
  {| SQLiteHandle.Close value :=
       _ <- call (ev_close value) (sqlite3_close value);;
       ret tt |}.

Definition GetAbi (self : t) : ptr := SQLiteHandle.Get (m_Handle self).

Definition to_bool (self : t) : bool := SQLiteHandle.to_bool (m_Handle self).

(** [ThrowLastError() const], which does not return:
    [throw SQLiteException(GetAbi())]. *)
Definition ThrowLastError {A} (self : t) : M (World E) A :=
  throw_from (GetAbi self).

(** The destructor: the handle member's. *)
Definition destroy {S} `{HasWorld E S} : M (t * S) unit :=
  on_handle (SQLiteHandle.destroy SQLiteConnectionHandleTraits).

(** The implicit move constructor and move assignment: the handle
    member's. *)
Definition move_construct : M t t :=
  h <- zoom m_Handle (fun h _ => {| m_Handle := h |}) SQLiteHandle.move_construct;;
  ret {| m_Handle := h |}.

Definition move_assign {S} `{HasWorld E S} : M (t * (t * S)) unit :=
  zoom (fun s => (m_Handle (fst s), (m_Handle (fst (snd s)), snd (snd s))))
       (fun r _ => ({| m_Handle := fst r |}, ({| m_Handle := fst (snd r) |}, snd (snd r))))
       (SQLiteHandle.move_assign SQLiteConnectionHandleTraits).

(** [swap(m_Handle, temp.m_Handle)] where [temp] is in front of [*this]. *)
Definition swap_with_temp {S} : M (t * (t * S)) unit :=
  zoom (fun s => (m_Handle (fst (snd s)), m_Handle (fst s)))
       (fun hs s => ({| m_Handle := snd hs |}, ({| m_Handle := fst hs |}, snd (snd s))))
       SQLiteHandle.swap.

(** [InternalOpen(open, filename)].  The state is [*this] and the world;
    inside the block the local [temp] is in front of it. *)
Definition InternalOpen (open : Buffer → M (World E) (Z * ptr)) (filename : Buffer)
    : M (t * World E) unit :=
  scoped default destroy
    (r <- lift (open filename);;
     on_handle (on_self (SQLiteHandle.Set_ (snd r)));;
     (if negb (SQLITE_OK =? fst r) then
        temp <- on_self get;;
        lift (ThrowLastError temp)
      else ret tt);;
     swap_with_temp).

Definition native_open (filename : Buffer) : M (World E) (Z * ptr) :=
  call (ev_open filename)
       (fun e => let '(status, db, e') := sqlite3_open filename e in ((status, db), e')).

Definition native_open16 (filename : Buffer) : M (World E) (Z * ptr) :=
  call (ev_open16 filename)
       (fun e => let '(status, db, e') := sqlite3_open16 filename e in ((status, db), e')).

(** The four [Open] overloads: [char] and [char8_t] names go to
    [sqlite3_open], [wchar_t] and [char16_t] names to [sqlite3_open16]. *)
Definition Open (filename : Buffer) : M (t * World E) unit :=
  InternalOpen native_open filename.

Definition Open16 (filename : Buffer) : M (t * World E) unit :=
  InternalOpen native_open16 filename.

Definition RowId (self : t) : M (World E) Z :=
  query (ev_last_insert_rowid (GetAbi self)) (sqlite3_last_insert_rowid (GetAbi self)).

End WithEngine.
End SQLiteConnection.

(** ** Objects referred to by pointer *)

(** The wrappers that keep a pointer to another wrapper ([SQLiteBackup] to
    its destination, [SQLiteRowIterator] to its statement) only read it.
    The objects such pointers refer to are a store from addresses to
    objects; dereferencing the null pointer, or an address where no object
    lives, is undefined. *)
Definition deref {X S} (objects : gmap Z X) (p : ptr) : M S X :=
  if p =? nullptr then undefined
  else match objects !! p with
       | Some x => ret x
       | None => undefined
       end.

(** ** Backups *)

Module SQLiteBackup.

Record t := { m_Handle : SQLiteHandle.t; m_Destination : ptr }.

Definition on_handle {S A} (m : M (SQLiteHandle.t * S) A) : M (t * S) A :=
  zoom (fun s => (m_Handle (fst s), snd s))
       (fun r s => ({| m_Handle := fst r; m_Destination := m_Destination (fst s) |}, snd r))
       m.

Section WithEngine.
Context {E : Type} {N : Engine E}.

Definition SQLiteBackupHandleTraits : SQLiteHandle.Traits E :=
  {| SQLiteHandle.Close value :=
       _ <- call (ev_backup_finish value) (sqlite3_backup_finish value);;
       ret tt |}.

Definition GetAbi (self : t) : ptr := SQLiteHandle.Get (m_Handle self).

(** The constructor; [destination] and [source] are references to
    connections of the store.  The default names are both "main". *)
Definition construct (connections : gmap Z SQLiteConnection.t)
    (destination source : ptr) (destinationName sourceName : Buffer)
    : M (World E) t :=
  d <- deref connections destination;;
  s <- deref connections source;;
  b <- call (ev_backup_init (SQLiteConnection.GetAbi d) destinationName
                            (SQLiteConnection.GetAbi s) sourceName)
            (sqlite3_backup_init (SQLiteConnection.GetAbi d) destinationName
                                 (SQLiteConnection.GetAbi s) sourceName);;
  let self := {| m_Handle := {| SQLiteHandle.m_value := b |};
                 m_Destination := destination |} in
  if negb (SQLiteHandle.to_bool (m_Handle self))
  then SQLiteConnection.ThrowLastError d
  else ret self.

(** [bool Step(int32_t const pages = -1)]. *)
Definition Step (connections : gmap Z SQLiteConnection.t) (pages : Z)
    : M (t * World E) bool :=
  self <- on_self get;;
  result <- lift (call (ev_backup_step (GetAbi self) pages)
                       (sqlite3_backup_step (GetAbi self) pages));;
  if result =? SQLITE_OK then ret true
  else if result =? SQLITE_DONE then ret false
  else
    on_handle (SQLiteHandle.Reset SQLiteBackupHandleTraits);;
    destination <- deref connections (m_Destination self);;
    lift (SQLiteConnection.ThrowLastError destination).

End WithEngine.
End SQLiteBackup.

(** ** The reader *)

(** [SQLiteReader<T>] reads through [T::GetAbi]. *)
Class Readable (T : Type) := { GetAbi : T → ptr }.

Module SQLiteReader.
Section WithEngine.
Context {E : Type} {N : Engine E} {P : Platform} {T : Type} {R : Readable T}.

Definition GetInt32 (self : T) (column : Z) (e : E) : Z :=
  sqlite3_column_int (GetAbi self) column e.

Definition GetInt64 (self : T) (column : Z) (e : E) : Z :=
  sqlite3_column_int64 (GetAbi self) column e.

Definition GetDouble (self : T) (column : Z) (e : E) : Z :=
  sqlite3_column_double (GetAbi self) column e.

Definition GetBlob (self : T) (column : Z) (e : E) : list Z :=
  sqlite3_column_blob (GetAbi self) column e.

(** The text getters convert the engine's pointer and give the array it
    points to, as the engine left it: [GetString] by [reinterpret_cast]
    from [unsigned char const*], [GetWideString] and [GetU16String] by
    [static_cast] from [void const*].

    [GetU8String] is not embedded.  Its body is a [static_cast] from
    [unsigned char const*] to [char8_t const*], two distinct object types,
    which [static_cast] does not convert: the member is ill-formed as soon
    as it is instantiated, so no program calls it. *)
Definition GetString (self : T) (column : Z) (e : E) : Buffer :=
  sqlite3_column_text (GetAbi self) column e.

Definition GetWideString (self : T) (column : Z) (e : E) : Buffer :=
  sqlite3_column_text16 (GetAbi self) column e.

Definition GetU16String (self : T) (column : Z) (e : E) : Buffer :=
  sqlite3_column_text16 (GetAbi self) column e.

Definition GetBlobLength (self : T) (column : Z) (e : E) : Z :=
  sqlite3_column_bytes (GetAbi self) column e.

Definition GetStringLength (self : T) (column : Z) (e : E) : Z :=
  sqlite3_column_bytes (GetAbi self) column e.

(** [int / size_t]: the [int] is converted to [size_t], the quotient is a
    [size_t], and the return converts it to [int32_t]. *)
Definition GetWideStringLength (self : T) (column : Z) (e : E) : Z :=
  to_int32 (to_size_t (sqlite3_column_bytes16 (GetAbi self) column e) / sizeof_wchar_t).

Definition GetU8StringLength (self : T) (column : Z) (e : E) : Z :=
  to_int32 (to_size_t (sqlite3_column_bytes (GetAbi self) column e) / sizeof_char8_t).

Definition GetU16StringLength (self : T) (column : Z) (e : E) : Z :=
  to_int32 (to_size_t (sqlite3_column_bytes16 (GetAbi self) column e) / sizeof_char16_t).

(** The type tag, as the value of the [SQLiteType] enumerator. *)
Definition GetType (self : T) (column : Z) (e : E) : Z :=
  sqlite3_column_type (GetAbi self) column e.

End WithEngine.
End SQLiteReader.

(** ** Statements *)

(** A value of the pack given to [Prepare] and [BindAll]: one constructor
    per [Bind] overload.  Text is the array of its characters. *)
Inductive BindValue :=
| int32_value (value : Z)
| double_value (value : Z)
| char_pointer (value : list Z)
| wchar_pointer (value : list Z)
| char8_pointer (value : list Z)
| char16_pointer (value : list Z)
| string_ref (value : list Z)
| wstring_ref (value : list Z)
| u8string_ref (value : list Z)
| u16string_ref (value : list Z)
| string_rvalue (value : list Z)
| wstring_rvalue (value : list Z)
| u8string_rvalue (value : list Z)
| u16string_rvalue (value : list Z).

Module SQLiteStatement.

Record t := { m_Handle : SQLiteHandle.t }.

(** [SQLiteStatement() noexcept = default]. *)
Definition default : t := {| m_Handle := SQLiteHandle.Empty |}.

Definition on_handle {S A} (m : M (SQLiteHandle.t * S) A) : M (t * S) A :=
  zoom (fun s => (m_Handle (fst s), snd s))
       (fun r _ => ({| m_Handle := fst r |}, snd r)) m.

(** Modelled from the spec: [ASSERT] of [Handle.h], "debug-only
    verification ... a no-op check in release builds"; the build modelled
    is the release one. *)
Definition ASSERT {S} (condition : bool) : M S unit := ret tt.

Section WithEngine.
Context {E : Type} {N : Engine E} {P : Platform}.

Definition SQLiteStatementHandleTraits : SQLiteHandle.Traits E :=
  {| SQLiteHandle.Close value :=
       _ <- call (ev_finalize value) (sqlite3_finalize value);;
       ret tt |}.

Definition GetAbi (self : t) : ptr := SQLiteHandle.Get (m_Handle self).

Definition to_bool (self : t) : bool := SQLiteHandle.to_bool (m_Handle self).

(** [throw SQLiteException(sqlite3_db_handle(GetAbi()))]. *)
Definition ThrowLastError {A} (self : t) : M (World E) A :=
  db <- query (ev_db_handle (GetAbi self)) (sqlite3_db_handle (GetAbi self));;
  throw_from db.

(** The destructor, and the implicit move operations: the handle
    member's. *)
Definition destroy {S} `{HasWorld E S} : M (t * S) unit :=
  on_handle (SQLiteHandle.destroy SQLiteStatementHandleTraits).

Definition move_construct : M t t :=
  h <- zoom m_Handle (fun h _ => {| m_Handle := h |}) SQLiteHandle.move_construct;;
  ret {| m_Handle := h |}.

Definition move_assign {S} `{HasWorld E S} : M (t * (t * S)) unit :=
  zoom (fun s => (m_Handle (fst s), (m_Handle (fst (snd s)), snd (snd s))))
       (fun r _ => ({| m_Handle := fst r |}, ({| m_Handle := fst (snd r) |}, snd (snd r))))
       (SQLiteHandle.move_assign SQLiteStatementHandleTraits).

(** [bool Step() const]: its exception specification is computed from
    [sqlite3_step], a C function that is not declared [noexcept], so
    [Step] may throw. *)
Definition Step (self : t) : M (World E) bool :=
  result <- call (ev_step (GetAbi self)) (sqlite3_step (GetAbi self));;
  if result =? SQLITE_ROW then ret true
  else if result =? SQLITE_DONE then ret false
  else ThrowLastError self.

(** [Execute]: [VERIFY(!Step())] is the bare expression where [_DEBUG] is
    not defined. *)
Definition Execute (self : t) : M (World E) unit :=
  _ <- Step self;;
  ret tt.

Definition Reset (self : t) : M (World E) unit :=
  status <- call (ev_reset (GetAbi self)) (sqlite3_reset (GetAbi self));;
  if negb (SQLITE_OK =? status) then ThrowLastError self else ret tt.

(** The body shared by the [Bind] overloads: one native bind call, and
    [ThrowLastError] unless it returns [SQLITE_OK]. *)
Definition native_bind (self : t) (index : Z) (arg : BindArg) : M (World E) unit :=
  status <- call (ev_bind (GetAbi self) index arg) (sqlite3_bind (GetAbi self) index arg);;
  if negb (SQLITE_OK =? status) then ThrowLastError self else ret tt.

(** [Bind(index, int32_t)] and [Bind(index, double)]. *)
Definition Bind_int32 (self : t) (index value : Z) : M (World E) unit :=
  native_bind self index (bind_int value).

Definition Bind_double (self : t) (index value : Z) : M (World E) unit :=
  native_bind self index (bind_double value).

(** [Bind(index, C const* value, int32_t size = -1)] for the four character
    types. *)
Definition Bind_char (self : t) (index : Z) (value : list Z) (size : Z) : M (World E) unit :=
  native_bind self index
    (bind_text {| unit_size := 1; units := value |} size SQLITE_STATIC).

Definition Bind_wchar (self : t) (index : Z) (value : list Z) (size : Z) : M (World E) unit :=
  native_bind self index
    (bind_text16 {| unit_size := sizeof_wchar_t; units := value |} size SQLITE_STATIC).

Definition Bind_char8 (self : t) (index : Z) (value : list Z) (size : Z) : M (World E) unit :=
  native_bind self index
    (bind_text {| unit_size := sizeof_char8_t; units := value |} size SQLITE_STATIC).

Definition Bind_char16 (self : t) (index : Z) (value : list Z) (size : Z) : M (World E) unit :=
  native_bind self index
    (bind_text16 {| unit_size := sizeof_char16_t; units := value |} size SQLITE_STATIC).

(** [value.size()], a [size_t]. *)
Definition size (value : list Z) : Z := to_size_t (Z.of_nat (length value)).

(** [Bind(index, std::basic_string<C> const&)]. *)
Definition Bind_string (self : t) (index : Z) (value : list Z) : M (World E) unit :=
  Bind_char self index value (to_int32 (size value)).

Definition Bind_wstring (self : t) (index : Z) (value : list Z) : M (World E) unit :=
  Bind_wchar self index value (to_int32 (to_size_t (size value * sizeof_wchar_t))).

Definition Bind_u8string (self : t) (index : Z) (value : list Z) : M (World E) unit :=
  Bind_char8 self index value (to_int32 (to_size_t (size value * sizeof_char8_t))).

Definition Bind_u16string (self : t) (index : Z) (value : list Z) : M (World E) unit :=
  Bind_char16 self index value (to_int32 (to_size_t (size value * sizeof_char16_t))).

(** [Bind(index, std::basic_string<C>&&)]. *)
Definition Bind_string_rvalue (self : t) (index : Z) (value : list Z) : M (World E) unit :=
  native_bind self index
    (bind_text {| unit_size := 1; units := value |}
       (to_int32 (size value)) SQLITE_TRANSIENT).

Definition Bind_wstring_rvalue (self : t) (index : Z) (value : list Z) : M (World E) unit :=
  native_bind self index
    (bind_text16 {| unit_size := sizeof_wchar_t; units := value |}
       (to_int32 (to_size_t (size value * sizeof_wchar_t))) SQLITE_TRANSIENT).

Definition Bind_u8string_rvalue (self : t) (index : Z) (value : list Z) : M (World E) unit :=
  native_bind self index
    (bind_text {| unit_size := sizeof_char8_t; units := value |}
       (to_int32 (to_size_t (size value * sizeof_char8_t))) SQLITE_TRANSIENT).

Definition Bind_u16string_rvalue (self : t) (index : Z) (value : list Z) : M (World E) unit :=
  native_bind self index
    (bind_text16 {| unit_size := sizeof_char16_t; units := value |}
       (to_int32 (to_size_t (size value * sizeof_char16_t))) SQLITE_TRANSIENT).

(** [Bind(index, value)] as overload resolution selects it; the pointer
    overloads get their default [size = -1]. *)
Definition Bind (self : t) (index : Z) (value : BindValue) : M (World E) unit :=
  match value with
  | int32_value v => Bind_int32 self index v
  | double_value v => Bind_double self index v
  | char_pointer v => Bind_char self index v (-1)
  | wchar_pointer v => Bind_wchar self index v (-1)
  | char8_pointer v => Bind_char8 self index v (-1)
  | char16_pointer v => Bind_char16 self index v (-1)
  | string_ref v => Bind_string self index v
  | wstring_ref v => Bind_wstring self index v
  | u8string_ref v => Bind_u8string self index v
  | u16string_ref v => Bind_u16string self index v
  | string_rvalue v => Bind_string_rvalue self index v
  | wstring_rvalue v => Bind_wstring_rvalue self index v
  | u8string_rvalue v => Bind_u8string_rvalue self index v
  | u16string_rvalue v => Bind_u16string_rvalue self index v
  end.

(** The fold [(Bind(Index + 1, values), ...)] over the index sequence of the
    pack, from [Index] on: the comma operator evaluates its left operand
    first.  [Index + 1] is a [size_t], converted to the [int32_t] index. *)
Fixpoint bind_pack (self : t) (Index : nat) (values : list BindValue) : M (World E) unit :=
  match values with
  | [] => ret tt
  | value :: rest =>
      Bind self (to_int32 (to_size_t (Z.of_nat Index + 1))) value;;
      bind_pack self (S Index) rest
  end.

Definition InternalBindCpp17 (self : t) (values : list BindValue) : M (World E) unit :=
  bind_pack self 0 values.

Definition BindAll (self : t) (values : list BindValue) : M (World E) unit :=
  InternalBindCpp17 self values.

(** [InternalPrepare(connection, prepare, text, values...)]; the state is
    [*this] and the world.  [prepare] is given the connection's pointer,
    the text and the byte count -1, and stores the statement through
    [m_Handle.Set()]. *)
Definition InternalPrepare (connection : SQLiteConnection.t)
    (prepare : ptr → Buffer → Z → M (World E) (Z * ptr)) (text : Buffer)
    (values : list BindValue) : M (t * World E) unit :=
  ASSERT (SQLiteConnection.to_bool connection);;
  r <- lift (prepare (SQLiteConnection.GetAbi connection) text (-1));;
  on_handle (on_self (SQLiteHandle.Set_ (snd r)));;
  (if negb (SQLITE_OK =? fst r)
   then lift (SQLiteConnection.ThrowLastError connection)
   else ret tt);;
  self <- on_self get;;
  lift (BindAll self values).

Definition native_prepare_v2 (db : ptr) (text : Buffer) (nbyte : Z) : M (World E) (Z * ptr) :=
  call (ev_prepare_v2 db text nbyte)
       (fun e => let '(status, stmt, e') := sqlite3_prepare_v2 db text nbyte e in
                 ((status, stmt), e')).

Definition native_prepare16_v2 (db : ptr) (text : Buffer) (nbyte : Z) : M (World E) (Z * ptr) :=
  call (ev_prepare16_v2 db text nbyte)
       (fun e => let '(status, stmt, e') := sqlite3_prepare16_v2 db text nbyte e in
                 ((status, stmt), e')).

(** The [Prepare] overloads: [char] and [char8_t] text goes to
    [sqlite3_prepare_v2], [wchar_t] and [char16_t] text to
    [sqlite3_prepare16_v2]. *)
Definition Prepare (connection : SQLiteConnection.t) (text : Buffer)
    (values : list BindValue) : M (t * World E) unit :=
  InternalPrepare connection native_prepare_v2 text values.

Definition Prepare16 (connection : SQLiteConnection.t) (text : Buffer)
    (values : list BindValue) : M (t * World E) unit :=
  InternalPrepare connection native_prepare16_v2 text values.

End WithEngine.
End SQLiteStatement.

#[global] Instance SQLiteStatement_Readable : Readable SQLiteStatement.t :=
  {| GetAbi := SQLiteStatement.GetAbi |}.

(** ** Rows and the row iterator *)

Module SQLiteRow.

(** A row holds the statement's native pointer. *)
Record t := { m_Statement : ptr }.

Definition GetAbi (self : t) : ptr := m_Statement self.

End SQLiteRow.

#[global] Instance SQLiteRow_Readable : Readable SQLiteRow.t :=
  {| GetAbi := SQLiteRow.GetAbi |}.

Module SQLiteRowIterator.

(** An iterator holds the address of a statement, or null. *)
Record t := { m_Statement : ptr }.

(** [SQLiteRowIterator() noexcept = default]. *)
Definition default : t := {| m_Statement := nullptr |}.

Section WithEngine.
Context {E : Type} {N : Engine E}.
Variable statements : gmap Z SQLiteStatement.t.

(** [SQLiteRowIterator(SQLiteStatement const& statement) noexcept]. *)
Definition construct (statement : ptr) : M (World E) t :=
  noexcept
    (s <- deref statements statement;;
     row <- SQLiteStatement.Step s;;
     if row then ret {| m_Statement := statement |} else ret default).

(** [operator++() noexcept]; the state is [*this] in front of a state that
    holds the world. *)
Definition incr {S} `{HasWorld E S} : M (t * S) unit :=
  noexcept
    (self <- on_self get;;
     s <- deref statements (m_Statement self);;
     row <- lift (SQLiteStatement.Step s);;
     if negb row then on_self (put {| m_Statement := nullptr |}) else ret tt).

(** [operator!=]. *)
Definition neq (self other : t) : bool :=
  negb (m_Statement self =? m_Statement other).

(** [operator*() const noexcept]. *)
Definition star {S} (self : t) : M S SQLiteRow.t :=
  noexcept
    (s <- deref statements (m_Statement self);;
     ret {| SQLiteRow.m_Statement := SQLiteStatement.GetAbi s |}).

(** [begin(statement)] and [end(statement)]. *)
Definition begin_ (statement : ptr) : M (World E) t :=
  noexcept (construct statement).

Definition end_ (statement : ptr) : t := default.

End WithEngine.
End SQLiteRowIterator.

(** ** Walking the rows of a statement *)

(** The two ways to visit the rows of a statement: the range-based [for]
    over [begin]/[end], and a loop on [Step].  What the loop body takes from
    a row is [body], which reads the engine through the reader's native
    pointer; the state is the list of what it took so far, oldest first,
    and the world.  The loops are bounded by [fuel], the number of steps
    they may make; [None] is a loop that has steps left to make. *)
Section Loops.
Context {E : Type} {N : Engine E} {R : Type}.
Variable statements : gmap Z SQLiteStatement.t.
Variable body : ptr → E → R.

Definition visit {T} `{Readable T} (reader : T) : M (list R * World E) unit :=
  fun s => (Return tt, (fst s ++ [body (GetAbi reader) (engine (snd s))], snd s)).

(** Go on with [k] after a call that returned, stop with its outcome
    otherwise. *)
Definition and_then {S A B} (r : Outcome A * S) (k : A → S → option (Outcome B * S))
    : option (Outcome B * S) :=
  match r with
  | (Return a, s) => k a s
  | (Throw e, s) => Some (Throw e, s)
  | (Terminate, s) => Some (Terminate, s)
  | (Undefined, s) => Some (Undefined, s)
  end.

(** One round of [for (; b != e; ++b) { SQLiteRow row = *b; body }]. *)
Definition round : M (SQLiteRowIterator.t * (list R * World E)) unit :=
  b <- on_self get;;
  row <- SQLiteRowIterator.star statements b;;
  behind (visit row);;
  SQLiteRowIterator.incr statements.

Fixpoint range_for_from (fuel : nat) (statement : ptr) (b : SQLiteRowIterator.t)
    (s : list R * World E) : option (Outcome unit * (list R * World E)) :=
  if SQLiteRowIterator.neq b (SQLiteRowIterator.end_ statement) then
    match fuel with
    | O => None
    | S fuel' =>
        and_then (with_object b round s)
                 (fun r s' => range_for_from fuel' statement (snd r) s')
    end
  else Some (Return tt, s).

(** [for (SQLiteRow row : statement) body]; [statement] is the address of
    the statement. *)
Definition range_for (fuel : nat) (statement : ptr) (s : list R * World E)
    : option (Outcome unit * (list R * World E)) :=
  match fuel with
  | O => None
  | S fuel' =>
      and_then (lift (SQLiteRowIterator.begin_ statements statement) s)
               (fun b s' => range_for_from fuel' statement b s')
  end.

(** [while (statement.Step()) body]. *)
Fixpoint step_loop (fuel : nat) (statement : SQLiteStatement.t) (s : list R * World E)
    : option (Outcome unit * (list R * World E)) :=
  match fuel with
  | O => None
  | S fuel' =>
      and_then (lift (SQLiteStatement.Step statement) s)
               (fun row s' =>
                  if row : bool
                  then and_then (visit statement s')
                                (fun _ s'' => step_loop fuel' statement s'')
                  else Some (Return tt, s'))
  end.

End Loops.

(** What an outcome becomes when it leaves a [noexcept] function. *)
Definition as_noexcept {A} (o : Outcome A) : Outcome A :=
  match o with
  | Throw _ => Terminate
  | _ => o
  end.


(** ** What a trace says about binding *)

(** What [Bind] gives the engine for a value of the pack (see
    [Bind_native_arg] below). *)
Definition native_arg `{Platform} (value : BindValue) : BindArg :=
  match value with
  | int32_value v => bind_int v
  | double_value v => bind_double v
  | char_pointer v => bind_text {| unit_size := 1; units := v |} (-1) SQLITE_STATIC
  | wchar_pointer v =>
      bind_text16 {| unit_size := sizeof_wchar_t; units := v |} (-1) SQLITE_STATIC
  | char8_pointer v =>
      bind_text {| unit_size := sizeof_char8_t; units := v |} (-1) SQLITE_STATIC
  | char16_pointer v =>
      bind_text16 {| unit_size := sizeof_char16_t; units := v |} (-1) SQLITE_STATIC
  | string_ref v =>
      bind_text {| unit_size := 1; units := v |}
        (to_int32 (SQLiteStatement.size v)) SQLITE_STATIC
  | wstring_ref v =>
      bind_text16 {| unit_size := sizeof_wchar_t; units := v |}
        (to_int32 (to_size_t (SQLiteStatement.size v * sizeof_wchar_t))) SQLITE_STATIC
  | u8string_ref v =>
      bind_text {| unit_size := sizeof_char8_t; units := v |}
        (to_int32 (to_size_t (SQLiteStatement.size v * sizeof_char8_t))) SQLITE_STATIC
  | u16string_ref v =>
      bind_text16 {| unit_size := sizeof_char16_t; units := v |}
        (to_int32 (to_size_t (SQLiteStatement.size v * sizeof_char16_t))) SQLITE_STATIC
  | string_rvalue v =>
      bind_text {| unit_size := 1; units := v |}
        (to_int32 (SQLiteStatement.size v)) SQLITE_TRANSIENT
  | wstring_rvalue v =>
      bind_text16 {| unit_size := sizeof_wchar_t; units := v |}
        (to_int32 (to_size_t (SQLiteStatement.size v * sizeof_wchar_t))) SQLITE_TRANSIENT
  | u8string_rvalue v =>
      bind_text {| unit_size := sizeof_char8_t; units := v |}
        (to_int32 (to_size_t (SQLiteStatement.size v * sizeof_char8_t))) SQLITE_TRANSIENT
  | u16string_rvalue v =>
      bind_text16 {| unit_size := sizeof_char16_t; units := v |}
        (to_int32 (to_size_t (SQLiteStatement.size v * sizeof_char16_t))) SQLITE_TRANSIENT
  end.

(** The native bind calls of a trace, in its order: the statement, the
    parameter position and the argument of each. *)
Definition bound (ev : Event) : option (ptr * Z * BindArg) :=
  match ev with
  | ev_bind stmt index arg => Some (stmt, index, arg)
  | _ => None
  end.

Definition binds (events : list Event) : list (ptr * Z * BindArg) := omap bound events.

(** The native calls made from the world [w] to the world [w']. *)
Definition since {E} (w w' : World E) : list Event :=
  drop (length (trace w)) (trace w').

(** The value at index [k] of the pack, bound at position [k + 1]. *)
Definition positional `{Platform} (stmt : ptr) (values : list BindValue)
    : list (ptr * Z * BindArg) :=
  imap (fun k value => (stmt, Z.of_nat k + 1, native_arg value)) values.

(** The index in the pack of the first value that the engine refuses when
    the arguments are bound in order from the position [index] on, each in
    the state the one before left; [None] when it accepts them all. *)
Fixpoint first_rejected {E} {N : Engine E} (stmt : ptr) (index : Z) (args : list BindArg)
    (e : E) : option nat :=
  match args with
  | [] => None
  | arg :: rest =>
      if fst (sqlite3_bind stmt index arg e) =? SQLITE_OK
      then S <$> first_rejected stmt (index + 1) rest (snd (sqlite3_bind stmt index arg e))
      else Some 0%nat
  end.

(** ** Text in memory, and what the engine takes of it *)

(** The bytes of an array element [width] bytes wide, least significant
    first: the byte order of a little-endian platform, as those of
    [winsqlite] are.  It is the order in which the engine reads and writes
    UTF-16, which it takes and gives in the byte order of the platform. *)
Fixpoint little_endian (width : nat) (u : Z) : list Z :=
  match width with
  | O => []
  | S width' => u mod 256 :: little_endian width' (u / 256)
  end.

(** The bytes of the characters of a text, and the memory behind a pointer
    to it: the characters, then the terminating character. *)
Definition content (b : Buffer) : list Z :=
  flat_map (little_endian (Z.to_nat (unit_size b))) (units b).

Definition memory (b : Buffer) : list Z :=
  content b ++ replicate (Z.to_nat (unit_size b)) 0.

(** The 16-bit units of a run of bytes, in that byte order. *)
Fixpoint units16 (bytes : list Z) : list Z :=
  match bytes with
  | low :: high :: rest => low + 256 * high :: units16 rest
  | _ => []
  end.

(** The units before the first that is zero. *)
Fixpoint until_zero (us : list Z) : list Z :=
  match us with
  | [] => []
  | u :: rest => if u =? 0 then [] else u :: until_zero rest
  end.

(** What the engine takes as the text of a bind call ([sqlite3.h]): with a
    negative byte count the units up to the first zero terminator, with
    another the units in that many bytes; the units are bytes for
    [sqlite3_bind_text] and 16-bit units for [sqlite3_bind_text16],
    whatever the type of the pointer was. *)
Definition taken (arg : BindArg) : option (list Z) :=
  match arg with
  | bind_text value size _ =>
      Some (if size <? 0 then until_zero (memory value)
            else take (Z.to_nat size) (memory value))
  | bind_text16 value size _ =>
      Some (if size <? 0 then until_zero (units16 (memory value))
            else units16 (take (Z.to_nat size) (memory value)))
  | _ => None
  end.







(** ** What a trace says about closing *)

(** The native calls that closing a connection handle makes: none for the
    null pointer. *)
Definition closing (db : ptr) : list Event :=
  if db =? nullptr then [] else [ev_close db].

(** The world after a handle that holds [p] has been destroyed, where
    [close] is the native call of its kind and [ev] its record. *)
Definition closed {E} (close : ptr → E → Z * E) (ev : ptr → Event) (p : ptr)
    (w : World E) : World E :=
  if p =? nullptr then w
  else {| engine := snd (close p (engine w)); trace := trace w ++ [ev p] |}.

(** ** What the loops leave *)

(** The iterator that a step leaves: on the statement when the step gave a
    row, at the end otherwise; the step's exception does not leave the
    [noexcept] function. *)
Definition after_step (statement : ptr) (o : Outcome bool) : Outcome SQLiteRowIterator.t :=
  match o with
  | Return true => Return {| SQLiteRowIterator.m_Statement := statement |}
  | Return false => Return SQLiteRowIterator.default
  | Throw _ => Terminate
  | Terminate => Terminate
  | Undefined => Undefined
  end.

(** The state after the loop body has read the current row of [s]. *)
Definition visited {E R} (body : ptr → E → R) (s : SQLiteStatement.t)
    (st : list R * World E) : list R * World E :=
  (fst st ++ [body (SQLiteStatement.GetAbi s) (engine (snd st))], snd st).

(** Whether the next [n] steps of the statement [stmt] all give a row. *)
Fixpoint all_rows {E} {N : Engine E} (n : nat) (stmt : ptr) (e : E) : bool :=
  match n with
  | O => true
  | S n' =>
      (fst (sqlite3_step stmt e) =? SQLITE_ROW)
      && all_rows n' stmt (snd (sqlite3_step stmt e))
  end.

(** What a loop's result becomes when its exceptions cannot leave. *)
Definition contained {S} (r : option (Outcome unit * S)) : option (Outcome unit * S) :=
  option_map (fun r => (as_noexcept (fst r), snd r)) r.

(** ** An engine to run the wrappers on *)

(** A scripted engine for the examples: each status-returning call takes the
    next status of [replies] ([SQLITE_OK] when none is left); a call with an
    out-parameter stores [made] when it succeeds and [left] when it fails;
    the error queries give [code] and [message]; the integer of a column is
    the number of steps made so far. *)
Module Script.

Record t := {
  replies : list Z;
  made : ptr;
  left : ptr;
  session : ptr;
  code : Z;
  message : string;
  bytes : Z;
  bytes16 : Z;
  steps : Z
}.

Definition reply (e : t) : Z * t :=
  (hd SQLITE_OK (replies e),
   {| replies := tl (replies e); made := made e; left := left e;
      session := session e; code := code e; message := message e;
      bytes := bytes e; bytes16 := bytes16 e; steps := steps e |}).

Definition reply_out (e : t) : Z * ptr * t :=
  let (status, e') := reply e in
  (status, if status =? SQLITE_OK then made e else left e, e').

Definition step (e : t) : Z * t :=
  let (status, e') := reply e in
  (status,
   {| replies := replies e'; made := made e; left := left e;
      session := session e; code := code e; message := message e;
      bytes := bytes e; bytes16 := bytes16 e; steps := steps e + 1 |}).

#[global] Instance native : Engine t := {|
  sqlite3_open _ := reply_out;
  sqlite3_open16 _ := reply_out;
  sqlite3_close _ := reply;
  sqlite3_extended_errcode _ := code;
  sqlite3_errmsg _ := message;
  sqlite3_last_insert_rowid _ := steps;
  sqlite3_prepare_v2 _ _ _ := reply_out;
  sqlite3_prepare16_v2 _ _ _ := reply_out;
  sqlite3_finalize _ := reply;
  sqlite3_step _ := step;
  sqlite3_reset _ := reply;
  sqlite3_db_handle _ := session;
  sqlite3_bind _ _ _ := reply;
  sqlite3_backup_init _ _ _ _ e := (made e, e);
  sqlite3_backup_step _ _ := reply;
  sqlite3_backup_finish _ := reply;
  sqlite3_column_int _ column e := 10 * steps e + column;
  sqlite3_column_int64 _ column e := 10 * steps e + column;
  sqlite3_column_double _ _ _ := 0;
  sqlite3_column_blob _ _ _ := [];
  sqlite3_column_text _ _ _ := {| unit_size := 1; units := [] |};
  sqlite3_column_text16 _ _ _ := {| unit_size := 2; units := [] |};
  sqlite3_column_bytes _ _ := bytes;
  sqlite3_column_bytes16 _ _ := bytes16;
  sqlite3_column_type _ _ _ := 1
|}.

(** An engine that will give the statuses [replies] and store [left]
    through the out-parameter of a call that fails, and a world that
    starts with it. *)
Definition start (left : ptr) (replies : list Z) : t :=
  {| replies := replies; made := 7; left := left; session := 3; code := 1;
     message := "error"; bytes := 0; bytes16 := 0; steps := 0 |}.

Definition world (replies : list Z) : World t :=
  {| engine := start nullptr replies; trace := [] |}.

Definition world_leaving (left : ptr) (replies : list Z) : World t :=
  {| engine := start left replies; trace := [] |}.

(** An engine positioned on a row whose text takes [bytes] bytes as UTF-8
    and [bytes16] bytes as UTF-16. *)
Definition reading (bytes bytes16 : Z) : t :=
  {| replies := []; made := 7; left := 0; session := 3; code := 0;
     message := "not an error"; bytes := bytes; bytes16 := bytes16; steps := 1 |}.

(** A world whose engine will give the statuses [replies] and has no
    error on record: the code of its connection is 0, as after a call
    that the engine refuses by its status alone. *)
Definition unrecorded (replies : list Z) : World t :=
  {| engine := {| replies := replies; made := 7; left := 0; session := 3; code := 0;
                  message := "not an error"; bytes := 0; bytes16 := 0; steps := 0 |};
     trace := [] |}.

(** A platform with a 64-bit [size_t] and the given [sizeof(wchar_t)]. *)
Definition platform (wchar : Z) : Platform :=
  {| size_t_bits := 64; sizeof_wchar_t := wchar |}.

(** Objects for the examples: a connection on the native pointer 5, a
    statement on 9, a backup on 11 whose destination is the connection at
    address 50, and the stores that hold them. *)
Definition connection : SQLiteConnection.t :=
  {| SQLiteConnection.m_Handle := {| SQLiteHandle.m_value := 5 |} |}.

Definition statement : SQLiteStatement.t :=
  {| SQLiteStatement.m_Handle := {| SQLiteHandle.m_value := 9 |} |}.

Definition backup : SQLiteBackup.t :=
  {| SQLiteBackup.m_Handle := {| SQLiteHandle.m_value := 11 |};
     SQLiteBackup.m_Destination := 50 |}.

Definition connections : gmap Z SQLiteConnection.t := {[ 50 := connection ]}.

Definition statements : gmap Z SQLiteStatement.t := {[ 40 := statement ]}.

(** What the example loop body reads from a row: its first column as an
    integer. *)
Definition first_column (stmt : ptr) (e : t) : Z := sqlite3_column_int stmt 0 e.

End Script.

(** ** An engine that keeps text *)

(** An engine with the statement [SELECT ?1, ?2, ...] and the text bound
    to each of its parameters, kept as [taken] says; the statement has
    [rows] rows left to give, and the column [c] of a row is the parameter
    [c + 1]. *)
Module Texts.

Record t := { parameters : gmap Z (list Z); rows : nat }.

Definition keep (index : Z) (arg : BindArg) (e : t) : Z * t :=
  match taken arg with
  | Some text =>
      (SQLITE_OK, {| parameters := <[index := text]> (parameters e); rows := rows e |})
  | None => (SQLITE_OK, e)
  end.

Definition step (e : t) : Z * t :=
  match rows e with
  | O => (SQLITE_DONE, e)
  | S n => (SQLITE_ROW, {| parameters := parameters e; rows := n |})
  end.

Definition column (c : Z) (e : t) : list Z := default [] (parameters e !! (c + 1)).

#[global] Instance native : Engine t := {|
  sqlite3_open _ e := (SQLITE_OK, 5, e);
  sqlite3_open16 _ e := (SQLITE_OK, 5, e);
  sqlite3_close _ e := (SQLITE_OK, e);
  sqlite3_extended_errcode _ _ := 0;
  sqlite3_errmsg _ _ := "not an error";
  sqlite3_last_insert_rowid _ _ := 0;
  sqlite3_prepare_v2 _ _ _ e := (SQLITE_OK, 9, e);
  sqlite3_prepare16_v2 _ _ _ e := (SQLITE_OK, 9, e);
  sqlite3_finalize _ e := (SQLITE_OK, e);
  sqlite3_step _ := step;
  sqlite3_reset _ e := (SQLITE_OK, e);
  sqlite3_db_handle _ _ := 5;
  sqlite3_bind _ := keep;
  sqlite3_backup_init _ _ _ _ e := (nullptr, e);
  sqlite3_backup_step _ _ e := (SQLITE_DONE, e);
  sqlite3_backup_finish _ e := (SQLITE_OK, e);
  sqlite3_column_int _ _ _ := 0;
  sqlite3_column_int64 _ _ _ := 0;
  sqlite3_column_double _ _ _ := 0;
  sqlite3_column_blob _ c e := column c e;
  sqlite3_column_text _ c e := {| unit_size := 1; units := column c e |};
  sqlite3_column_text16 _ c e := {| unit_size := 2; units := column c e |};
  sqlite3_column_bytes _ c e := Z.of_nat (length (column c e));
  sqlite3_column_bytes16 _ c e := 2 * Z.of_nat (length (column c e));
  sqlite3_column_type _ _ _ := 3
|}.

(** A world in which nothing is bound yet and one row is to come. *)
Definition world : World t := {| engine := {| parameters := ∅; rows := 1 |}; trace := [] |}.

End Texts.

(** * More of [SQLite.h] *)

(** ** Type names *)

(** The enumerators of [SQLiteType], an enumeration over [int]: the
    engine's type codes ([sqlite3.h]).  A value converted from the engine's
    code ([GetType]) may be none of them. *)
Module SQLiteType.
Definition Integer : Z := 1.
Definition Float : Z := 2.
Definition Blob : Z := 4.
Definition Null : Z := 5.
Definition Text : Z := 3.
End SQLiteType.

(** The code units of a literal of ASCII characters. *)
Definition code_units (s : string) : list Z :=
  map (fun c => Z.of_N (Ascii.N_of_ascii c)) (String.list_ascii_of_string s).

(** A string literal whose characters are [unit] bytes wide. *)
Definition literal (unit : Z) (s : string) : Buffer :=
  {| unit_size := unit; units := code_units s |}.

(** [SQLiteTypeName]: the [switch] over the enumerators, and the
    ["Invalid"] after it ([ASSERT(false)] checks nothing in the build
    modelled). *)
Definition SQLiteTypeName (type : Z) : Buffer :=
  if type =? SQLiteType.Integer then literal 1 "Integer"
  else if type =? SQLiteType.Float then literal 1 "Float"
  else if type =? SQLiteType.Blob then literal 1 "Blob"
  else if type =? SQLiteType.Null then literal 1 "Null"
  else if type =? SQLiteType.Text then literal 1 "Text"
  else literal 1 "Invalid".

Definition SQLiteU8TypeName (type : Z) : Buffer :=
  if type =? SQLiteType.Integer then literal sizeof_char8_t "Integer"
  else if type =? SQLiteType.Float then literal sizeof_char8_t "Float"
  else if type =? SQLiteType.Blob then literal sizeof_char8_t "Blob"
  else if type =? SQLiteType.Null then literal sizeof_char8_t "Null"
  else if type =? SQLiteType.Text then literal sizeof_char8_t "Text"
  else literal sizeof_char8_t "Invalid".

Definition SQLiteU16TypeName (type : Z) : Buffer :=
  if type =? SQLiteType.Integer then literal sizeof_char16_t "Integer"
  else if type =? SQLiteType.Float then literal sizeof_char16_t "Float"
  else if type =? SQLiteType.Blob then literal sizeof_char16_t "Blob"
  else if type =? SQLiteType.Null then literal sizeof_char16_t "Null"
  else if type =? SQLiteType.Text then literal sizeof_char16_t "Text"
  else literal sizeof_char16_t "Invalid".

(** ** Constructors and destructors *)

(** A constructor body, run on the object under construction.  When the
    body throws, the members are destroyed and the exception goes on: no
    object comes out. *)
Definition constructing {S X} (init : X) (destroy : M (X * S) unit)
    (body : M (X * S) unit) : M S X :=
  fun s =>
    match body (init, s) with
    | (Return _, xs) => (Return (fst xs), snd xs)
    | (Throw e, xs) =>
        match noexcept destroy xs with
        | (Return _, xs') => (Throw e, snd xs')
        | (Throw _, xs') => (Terminate, snd xs')
        | (Terminate, xs') => (Terminate, snd xs')
        | (Undefined, xs') => (Undefined, snd xs')
        end
    | (Terminate, xs) => (Terminate, snd xs)
    | (Undefined, xs) => (Undefined, snd xs)
    end.

Section MoreWrappers.
Context {E : Type} {N : Engine E} {P : Platform}.

(** [explicit SQLiteConnection(C const* filename)]: [Open(filename)] on
    the default members, for [char] and [char8_t] names and for [wchar_t]
    and [char16_t] names. *)
Definition SQLiteConnection_construct (filename : Buffer) : M (World E) SQLiteConnection.t :=
  constructing SQLiteConnection.default SQLiteConnection.destroy
    (SQLiteConnection.Open filename).

Definition SQLiteConnection_construct16 (filename : Buffer) : M (World E) SQLiteConnection.t :=
  constructing SQLiteConnection.default SQLiteConnection.destroy
    (SQLiteConnection.Open16 filename).

(** [Memory()] and [WideMemory()]. *)
Definition Memory : M (World E) SQLiteConnection.t :=
  SQLiteConnection_construct (literal 1 ":memory:").

Definition WideMemory : M (World E) SQLiteConnection.t :=
  SQLiteConnection_construct16 (literal sizeof_wchar_t ":memory:").

(** The destructor of a backup: the handle member's; the pointer to the
    destination is a plain pointer. *)
Definition SQLiteBackup_destroy {S} `{HasWorld E S} : M (SQLiteBackup.t * S) unit :=
  SQLiteBackup.on_handle (SQLiteHandle.destroy SQLiteBackup.SQLiteBackupHandleTraits).

(** [SQLiteStatement(connection, text, values...)]: [Prepare] on the
    default members, for narrow text. *)
Definition SQLiteStatement_construct (connection : SQLiteConnection.t) (text : Buffer)
    (values : list BindValue) : M (World E) SQLiteStatement.t :=
  constructing SQLiteStatement.default SQLiteStatement.destroy
    (SQLiteStatement.Prepare connection text values).

(** The free function [Execute(connection, text, values...)]:
    [SQLiteStatement(connection, text, values...).Execute()]; the
    temporary statement is destroyed at the end of the expression. *)
Definition Execute (connection : SQLiteConnection.t) (text : Buffer)
    (values : list BindValue) : M (World E) unit :=
  temporary <- SQLiteStatement_construct connection text values;;
  scoped temporary SQLiteStatement.destroy
    (self <- on_self get;;
     lift (SQLiteStatement.Execute self)).

(** The largest [int]. *)
Definition INT_MAX : Z := 2 ^ 31 - 1.

(** The deprecated [InternalBind(index, first, rest...)], down to
    [InternalBind(int)], which does nothing.  [index + 1] is computed in
    [int]; past [INT_MAX] it is undefined. *)
Fixpoint InternalBind (self : SQLiteStatement.t) (index : Z) (values : list BindValue)
    : M (World E) unit :=
  match values with
  | [] => ret tt
  | first :: rest =>
      SQLiteStatement.Bind self index first;;
      if index + 1 <=? INT_MAX
      then InternalBind self (index + 1) rest
      else undefined
  end.

End MoreWrappers.

(** ** What a trace says about steps, finishes and finalizes *)

(** The statements finalized in a trace, in its order. *)
Definition finalized (events : list Event) : list ptr :=
  omap (fun ev => match ev with ev_finalize stmt => Some stmt | _ => None end) events.

(** The backups finished in a trace, in its order. *)
Definition finished (events : list Event) : list ptr :=
  omap (fun ev => match ev with ev_backup_finish b => Some b | _ => None end) events.

(** A value that is one of the enumerators of [SQLiteType]. *)
Definition enumerator (type : Z) : Prop :=
  type = SQLiteType.Integer ∨ type = SQLiteType.Float ∨ type = SQLiteType.Blob ∨
  type = SQLiteType.Null ∨ type = SQLiteType.Text.

(** A computation that returns or throws and finalizes no statement. *)
Definition keeps_statements {E A} (m : M (World E) A) : Prop :=
  ∀ w, ∃ events,
    trace (snd (m w)) = trace w ++ events ∧
    finalized events = [] ∧
    ((∃ a, fst (m w) = Return a) ∨ (∃ e, fst (m w) = Throw e)).

(** * Theorems *)

Local Open Scope Z_scope.

(** ** Running the monad *)

#[local] Arguments call : simpl never.
#[local] Arguments query : simpl never.
#[local] Arguments throw_from : simpl never.
#[local] Arguments Z.eqb : simpl never.

Lemma call_run {E A} (ev : Event) (f : E → A * E) (w : World E) :
  call ev f w =
  (Return (fst (f (engine w))),
   {| engine := snd (f (engine w)); trace := trace w ++ [ev] |}).
Proof. unfold call. destruct (f (engine w)); reflexivity. Qed.

Lemma query_run {E A} (ev : Event) (f : E → A) (w : World E) :
  query ev f w = (Return (f (engine w)), {| engine := engine w; trace := trace w ++ [ev] |}).
Proof. unfold query. rewrite call_run. reflexivity. Qed.

Lemma throw_from_run {E} {N : Engine E} {A} (connection : ptr) (w : World E) :
  throw_from (A := A) connection w =
  (Throw {| ErrorCode := sqlite3_extended_errcode connection (engine w);
            ErrorMessage := sqlite3_errmsg connection (engine w) |},
   {| engine := engine w;
      trace := trace w ++ [ev_extended_errcode connection; ev_errmsg connection] |}).
Proof.
  unfold throw_from, SQLiteException_from, bind, throw, ret.
  rewrite !query_run. cbn. rewrite <- app_assoc. reflexivity.
Qed.

(** Unfold the monad's operations and run the native calls in reach. *)
Ltac unfold_monad :=
  unfold lift, on_self, behind; unfold zoom, bind, get, put, ret, throw, undefined.

Ltac run :=
  repeat (progress (unfold_monad; cbn;
                    rewrite ?call_run, ?query_run, ?throw_from_run)).

(** ** Statements: [Step] *)

Lemma Statement_ThrowLastError_run {E} {N : Engine E} {A} (self : SQLiteStatement.t)
    (w : World E) :
  let db := sqlite3_db_handle (SQLiteStatement.GetAbi self) (engine w) in
  SQLiteStatement.ThrowLastError (A := A) self w =
  (Throw {| ErrorCode := sqlite3_extended_errcode db (engine w);
            ErrorMessage := sqlite3_errmsg db (engine w) |},
   {| engine := engine w;
      trace := trace w ++ [ev_db_handle (SQLiteStatement.GetAbi self);
                           ev_extended_errcode db; ev_errmsg db] |}).
Proof.
  unfold SQLiteStatement.ThrowLastError, bind. rewrite query_run, throw_from_run.
  cbn. rewrite <- app_assoc. reflexivity.
Qed.

(** What [Step] does, by the status [sqlite3_step] returns. *)
Lemma Statement_Step_run {E} {N : Engine E} (self : SQLiteStatement.t) (w : World E) :
  let stmt := SQLiteStatement.GetAbi self in
  let status := fst (sqlite3_step stmt (engine w)) in
  let w1 := {| engine := snd (sqlite3_step stmt (engine w));
               trace := trace w ++ [ev_step stmt] |} in
  SQLiteStatement.Step self w =
  if status =? SQLITE_ROW then (Return true, w1)
  else if status =? SQLITE_DONE then (Return false, w1)
  else SQLiteStatement.ThrowLastError self w1.
Proof.
  cbv zeta. unfold SQLiteStatement.Step, bind. rewrite call_run.
  destruct (_ =? SQLITE_ROW); [reflexivity|].
  destruct (_ =? SQLITE_DONE); reflexivity.
Qed.

(** [Step] returns or throws. *)
Lemma Statement_Step_defined {E} {N : Engine E} (self : SQLiteStatement.t) (w : World E) :
  fst (SQLiteStatement.Step self w) ≠ Undefined ∧
  fst (SQLiteStatement.Step self w) ≠ Terminate.
Proof.
  rewrite Statement_Step_run. cbv zeta.
  destruct (_ =? SQLITE_ROW); [split; discriminate|].
  destruct (_ =? SQLITE_DONE); [split; discriminate|].
  rewrite Statement_ThrowLastError_run. split; discriminate.
Qed.

(** C2. [SQLiteStatement::Step] returns true exactly when [sqlite3_step]
    returns [SQLITE_ROW], returns false exactly when it returns
    [SQLITE_DONE], and throws an [SQLiteException] exactly for every other
    status; the exception carries the extended error code and the message
    of the connection that owns the statement. *)
Theorem Statement_Step_by_status {E} {N : Engine E} (self : SQLiteStatement.t)
    (w : World E) :
  let stmt := SQLiteStatement.GetAbi self in
  let status := fst (sqlite3_step stmt (engine w)) in
  let e1 := snd (sqlite3_step stmt (engine w)) in
  let db := sqlite3_db_handle stmt e1 in
  let outcome := fst (SQLiteStatement.Step self w) in
  (outcome = Return true ↔ status = SQLITE_ROW) ∧
  (outcome = Return false ↔ status = SQLITE_DONE) ∧
  (outcome = Throw {| ErrorCode := sqlite3_extended_errcode db e1;
                      ErrorMessage := sqlite3_errmsg db e1 |}
   ↔ status ≠ SQLITE_ROW ∧ status ≠ SQLITE_DONE) ∧
  ((∃ e, outcome = Throw e) ↔ status ≠ SQLITE_ROW ∧ status ≠ SQLITE_DONE).
Proof.
  cbv zeta. rewrite Statement_Step_run. cbv zeta.
  set (status := fst (sqlite3_step _ _)).
  assert (Hne : SQLITE_ROW ≠ SQLITE_DONE) by discriminate.
  destruct (Z.eqb_spec status SQLITE_ROW) as [Hrow|Hrow];
    [|destruct (Z.eqb_spec status SQLITE_DONE) as [Hdone|Hdone];
      [|rewrite Statement_ThrowLastError_run]];
    cbn [fst]; repeat apply conj; intros H;
    first [ reflexivity | assumption | discriminate H | congruence
          | now (exfalso; destruct H; congruence)
          | now (exfalso; destruct H; discriminate)
          | now split
          | now eexists ].
Qed.

(** ** Backups: [Step] *)

(** A backup that its constructor returned owns its handle, and its
    destination is a connection of the store. *)
Lemma Backup_construct_owns {E} {N : Engine E} (connections : gmap Z SQLiteConnection.t)
    (destination source : ptr) (destinationName sourceName : Buffer)
    (w w' : World E) (self : SQLiteBackup.t) :
  SQLiteBackup.construct connections destination source destinationName sourceName w
    = (Return self, w') →
  SQLiteHandle.to_bool (SQLiteBackup.m_Handle self) = true ∧
  SQLiteBackup.m_Destination self = destination ∧
  destination ≠ nullptr ∧
  is_Some (connections !! destination).
Proof.
  unfold SQLiteBackup.construct, deref. unfold_monad.
  destruct (Z.eqb_spec destination nullptr) as [|Hd]; [discriminate|].
  destruct (connections !! destination) as [d|] eqn:Hlive; [|discriminate].
  destruct (source =? nullptr); [discriminate|].
  destruct (connections !! source) as [s|]; [|discriminate].
  rewrite call_run.
  destruct (SQLiteHandle.to_bool _) eqn:Howning; cbn [negb].
  - intros [= <- _]. cbn. auto.
  - unfold SQLiteConnection.ThrowLastError. rewrite throw_from_run. discriminate.
Qed.

(** C1. [SQLiteBackup::Step], for a backup that owns its handle and whose
    destination is alive.  When [sqlite3_backup_step] returns [SQLITE_OK]
    it returns true, when it returns [SQLITE_DONE] it returns false, and
    these are the only ways it returns either value.  For every other
    status it first finishes the backup ([sqlite3_backup_finish] on the
    handle, which is then empty) and then throws the exception read from
    the destination connection: the error is read from the engine as the
    finish left it, and the native calls are made in that order. *)
Theorem Backup_Step_finishes_then_throws {E} {N : Engine E}
    (connections : gmap Z SQLiteConnection.t) (pages : Z)
    (self : SQLiteBackup.t) (destination : SQLiteConnection.t) (w : World E) :
  SQLiteHandle.to_bool (SQLiteBackup.m_Handle self) = true →
  SQLiteBackup.m_Destination self ≠ nullptr →
  connections !! SQLiteBackup.m_Destination self = Some destination →
  let backup := SQLiteBackup.GetAbi self in
  let status := fst (sqlite3_backup_step backup pages (engine w)) in
  let e1 := snd (sqlite3_backup_step backup pages (engine w)) in
  let e2 := snd (sqlite3_backup_finish backup e1) in
  let db := SQLiteConnection.GetAbi destination in
  let stepped := {| engine := e1; trace := trace w ++ [ev_backup_step backup pages] |} in
  let r := SQLiteBackup.Step connections pages (self, w) in
  (fst r = Return true ↔ status = SQLITE_OK) ∧
  (fst r = Return false ↔ status = SQLITE_DONE) ∧
  (status = SQLITE_OK ∨ status = SQLITE_DONE → snd r = (self, stepped)) ∧
  (status ≠ SQLITE_OK → status ≠ SQLITE_DONE →
   r = (Throw {| ErrorCode := sqlite3_extended_errcode db e2;
                 ErrorMessage := sqlite3_errmsg db e2 |},
        ({| SQLiteBackup.m_Handle := SQLiteHandle.Empty;
            SQLiteBackup.m_Destination := SQLiteBackup.m_Destination self |},
         {| engine := e2;
            trace := trace w ++ [ev_backup_step backup pages;
                                 ev_backup_finish backup;
                                 ev_extended_errcode db;
                                 ev_errmsg db] |}))).
Proof.
  intros Howning Hnonnull Hlive. cbv zeta.
  unfold SQLiteBackup.Step. run.
  set (status := fst (sqlite3_backup_step _ _ _)).
  assert (Hne : SQLITE_OK ≠ SQLITE_DONE) by discriminate.
  destruct (Z.eqb_spec status SQLITE_OK) as [Hok|Hok].
  { cbn. repeat apply conj; intros; try congruence; try reflexivity; try discriminate. }
  destruct (Z.eqb_spec status SQLITE_DONE) as [Hdone|Hdone].
  { cbn. repeat apply conj; intros; try congruence; try reflexivity; try discriminate. }
  unfold SQLiteBackup.on_handle, SQLiteHandle.Reset. run.
  rewrite Howning. run.
  unfold deref. destruct (Z.eqb_spec (SQLiteBackup.m_Destination self) nullptr) as [|_];
    [contradiction|].
  rewrite Hlive. unfold SQLiteConnection.ThrowLastError. run.
  repeat apply conj; intros; try congruence; try discriminate.
  - destruct H; congruence.
  - rewrite <- !app_assoc. reflexivity.
Qed.

(** ** Connections: [Open] *)

(** Destroying a connection or a statement closes what its handle holds. *)
Lemma Connection_destroy_run {E} {N : Engine E} {S} `{HasWorld E S}
    (c : SQLiteConnection.t) (s : S) :
  SQLiteConnection.destroy (c, s) =
  (Return tt,
   (c, if SQLiteConnection.GetAbi c =? nullptr then s
       else set_world {| engine := snd (sqlite3_close (SQLiteConnection.GetAbi c)
                                          (engine (the_world s)));
                         trace := trace (the_world s)
                                  ++ [ev_close (SQLiteConnection.GetAbi c)] |} s)).
Proof.
  destruct c as [[p]].
  unfold SQLiteConnection.destroy, SQLiteConnection.on_handle, SQLiteHandle.destroy,
    SQLiteHandle.to_bool, SQLiteConnection.GetAbi, SQLiteHandle.Get.
  run. destruct (p =? nullptr); run; reflexivity.
Qed.

Lemma Statement_destroy_run {E} {N : Engine E} {S} `{HasWorld E S}
    (c : SQLiteStatement.t) (s : S) :
  SQLiteStatement.destroy (c, s) =
  (Return tt,
   (c, if SQLiteStatement.GetAbi c =? nullptr then s
       else set_world {| engine := snd (sqlite3_finalize (SQLiteStatement.GetAbi c)
                                          (engine (the_world s)));
                         trace := trace (the_world s)
                                  ++ [ev_finalize (SQLiteStatement.GetAbi c)] |} s)).
Proof.
  destruct c as [[p]].
  unfold SQLiteStatement.destroy, SQLiteStatement.on_handle, SQLiteHandle.destroy,
    SQLiteHandle.to_bool, SQLiteStatement.GetAbi, SQLiteHandle.Get.
  run. destruct (p =? nullptr); run; reflexivity.
Qed.

#[local] Arguments SQLiteConnection.destroy : simpl never.
#[local] Arguments SQLiteStatement.destroy : simpl never.

(** C3. [SQLiteConnection::InternalOpen] for an [open] primitive that
    returns [status] and stores [db] through the slot of the temporary's
    handle.  When [status] is not [SQLITE_OK], the exception thrown is read
    from [db], the temporary's own handle, the receiving connection is
    exactly what it was, and the temporary's handle is closed while the
    exception leaves the block.  When [status] is [SQLITE_OK], the call
    returns, the receiving connection holds [db], and what it held before
    is closed with the temporary.  So the receiving connection holds the
    new handle exactly when the status is [SQLITE_OK]. *)
Theorem InternalOpen_atomic {E} {N : Engine E}
    (open : Buffer → M (World E) (Z * ptr)) (filename : Buffer)
    (self : SQLiteConnection.t) (w w1 : World E) (status : Z) (db : ptr) :
  open filename w = (Return (status, db), w1) →
  let r := SQLiteConnection.InternalOpen open filename (self, w) in
  let opened := {| SQLiteConnection.m_Handle := {| SQLiteHandle.m_value := db |} |} in
  (status ≠ SQLITE_OK →
   r = (Throw {| ErrorCode := sqlite3_extended_errcode db (engine w1);
                 ErrorMessage := sqlite3_errmsg db (engine w1) |},
        (self,
         closed sqlite3_close ev_close db
           {| engine := engine w1;
              trace := trace w1 ++ [ev_extended_errcode db; ev_errmsg db] |}))) ∧
  (status = SQLITE_OK →
   r = (Return tt,
        (opened, closed sqlite3_close ev_close (SQLiteConnection.GetAbi self) w1))) ∧
  fst (snd r) = (if status =? SQLITE_OK then opened else self).
Proof.
  intros Hopen. cbv zeta.
  unfold SQLiteConnection.InternalOpen, scoped. run. rewrite Hopen. run.
  unfold SQLiteConnection.on_handle, SQLiteHandle.Set_. run.
  rewrite (Z.eqb_sym SQLITE_OK).
  destruct (Z.eqb_spec status SQLITE_OK) as [Hok|Hok]; cbn [negb].
  - unfold SQLiteConnection.swap_with_temp, SQLiteHandle.swap. run.
    unfold noexcept. rewrite Connection_destroy_run. unfold closed.
    destruct self as [[p]]. cbn.
    destruct (p =? nullptr);
      repeat apply conj; intros; first [contradiction | reflexivity].
  - unfold SQLiteConnection.ThrowLastError. run.
    unfold noexcept. rewrite Connection_destroy_run. unfold closed. cbn.
    destruct (db =? nullptr);
      repeat apply conj; intros; first [contradiction | reflexivity].
Qed.

(** ** Statements: [BindAll] *)

Lemma native_bind_run {E} {N : Engine E} (self : SQLiteStatement.t) (index : Z)
    (arg : BindArg) (w : World E) :
  let stmt := SQLiteStatement.GetAbi self in
  let w1 := {| engine := snd (sqlite3_bind stmt index arg (engine w));
               trace := trace w ++ [ev_bind stmt index arg] |} in
  SQLiteStatement.native_bind self index arg w =
  if fst (sqlite3_bind stmt index arg (engine w)) =? SQLITE_OK
  then (Return tt, w1)
  else SQLiteStatement.ThrowLastError self w1.
Proof.
  cbv zeta. unfold SQLiteStatement.native_bind. run.
  rewrite (Z.eqb_sym SQLITE_OK). destruct (_ =? SQLITE_OK); reflexivity.
Qed.

(** Every [Bind] overload is one native bind call with [native_arg]. *)
Lemma Bind_native_arg {E} {N : Engine E} {P : Platform} (self : SQLiteStatement.t)
    (index : Z) (value : BindValue) :
  SQLiteStatement.Bind self index value =
  SQLiteStatement.native_bind self index (native_arg value).
Proof. destruct value; reflexivity. Qed.

Lemma binds_app (a b : list Event) : binds (a ++ b) = binds a ++ binds b.
Proof. apply omap_app. Qed.

Lemma since_app {E} (w w' : World E) (events : list Event) :
  trace w' = trace w ++ events → since w w' = events.
Proof. intros H. unfold since. rewrite H. apply drop_app_length. Qed.

(** The index conversions of the fold are the identity on the positions of
    a pack. *)
Lemma position_in_range {P : Platform} (k : Z) :
  32 ≤ size_t_bits → 0 ≤ k < 2 ^ 31 → to_int32 (to_size_t k) = k.
Proof.
  intros Hbits Hk. unfold to_int32, to_size_t.
  assert (2 ^ 32 ≤ 2 ^ size_t_bits) by (apply Z.pow_le_mono_r; lia).
  rewrite (Z.mod_small k) by lia.
  rewrite Z.mod_small by lia. lia.
Qed.

Lemma bind_pack_cons {E} {N : Engine E} {P : Platform} (self : SQLiteStatement.t)
    (Index : nat) (value : BindValue) (rest : list BindValue) (w : World E) :
  let stmt := SQLiteStatement.GetAbi self in
  let index := to_int32 (to_size_t (Z.of_nat Index + 1)) in
  let w1 := {| engine := snd (sqlite3_bind stmt index (native_arg value) (engine w));
               trace := trace w ++ [ev_bind stmt index (native_arg value)] |} in
  SQLiteStatement.bind_pack self Index (value :: rest) w =
  if fst (sqlite3_bind stmt index (native_arg value) (engine w)) =? SQLITE_OK
  then SQLiteStatement.bind_pack self (S Index) rest w1
  else SQLiteStatement.ThrowLastError self w1.
Proof.
  cbv zeta. cbn [SQLiteStatement.bind_pack]. unfold bind at 1.
  rewrite Bind_native_arg, native_bind_run. cbv zeta.
  destruct (_ =? SQLITE_OK); [reflexivity|].
  rewrite !Statement_ThrowLastError_run. reflexivity.
Qed.

(** The fold from [Index] on: the trace grows by native bind calls at the
    positions [Index + 1], [Index + 2], ... in the order of the pack, up to
    and with the first that the engine refuses, which is followed by the
    queries that build the exception; the fold returns exactly when the
    engine accepts every value, and throws otherwise. *)
Lemma bind_pack_by_engine {E} {N : Engine E} {P : Platform} (self : SQLiteStatement.t)
    (values : list BindValue) :
  32 ≤ size_t_bits →
  ∀ (Index : nat) (w : World E),
    Z.of_nat Index + Z.of_nat (length values) < 2 ^ 31 →
    let stmt := SQLiteStatement.GetAbi self in
    let r := SQLiteStatement.bind_pack self Index values w in
    let all := imap (fun k value => (stmt, Z.of_nat (Index + k) + 1, native_arg value))
                 values in
    let rejected := first_rejected stmt (Z.of_nat Index + 1) (map native_arg values)
                      (engine w) in
    ∃ events,
      trace (snd r) = trace w ++ events ∧
      binds events = match rejected with
                     | None => all
                     | Some k => take (S k) all
                     end ∧
      (fst r = Return tt ↔ rejected = None) ∧
      (rejected ≠ None → ∃ e, fst r = Throw e).
Proof.
  intros Hbits. induction values as [|value rest IH]; intros Index w Hlen; cbv zeta.
  - exists []. cbn. rewrite app_nil_r. repeat split; congruence.
  - rewrite bind_pack_cons. cbv zeta.
    rewrite position_in_range by (cbn [length] in Hlen; lia).
    rewrite imap_cons. rewrite Nat.add_0_r. cbn [map first_rejected].
    destruct (_ =? SQLITE_OK).
    + cbn [length] in Hlen.
      destruct (IH (S Index) {|
          engine := snd (sqlite3_bind (SQLiteStatement.GetAbi self)
                           (Z.of_nat Index + 1) (native_arg value) (engine w));
          trace := trace w ++ [ev_bind (SQLiteStatement.GetAbi self)
                                 (Z.of_nat Index + 1) (native_arg value)] |}
          ltac:(lia)) as (events & Htrace & Hbinds & Hreturn & Hthrow).
      cbv zeta in Htrace, Hbinds, Hreturn, Hthrow. cbn [trace engine] in *.
      replace (Z.of_nat (S Index) + 1) with (Z.of_nat Index + 1 + 1) in * by lia.
      exists (ev_bind (SQLiteStatement.GetAbi self) (Z.of_nat Index + 1)
                (native_arg value) :: events).
      assert (Hshift :
        imap ((fun k value0 => (SQLiteStatement.GetAbi self,
                                Z.of_nat (Index + k) + 1, native_arg value0)) ∘ S) rest =
        imap (fun k value0 => (SQLiteStatement.GetAbi self,
                               Z.of_nat (S Index + k) + 1, native_arg value0)) rest).
      { apply imap_ext. intros k x _. cbn. do 2 f_equal. lia. }
      rewrite Hshift.
      destruct (first_rejected _ _ _ _) as [k|]; cbn [fmap option_fmap option_map].
      * split; [rewrite Htrace, <- app_assoc; reflexivity|].
        split; [cbn; f_equal; exact Hbinds|].
        split; [split; [intros H; apply Hreturn in H; discriminate | discriminate]|].
        intros _. apply Hthrow. discriminate.
      * split; [rewrite Htrace, <- app_assoc; reflexivity|].
        split; [cbn; f_equal; exact Hbinds|].
        split; [split; [reflexivity | intros _; apply Hreturn; reflexivity]|].
        intros H. contradiction.
    + rewrite Statement_ThrowLastError_run. cbv zeta. cbn [fst snd trace engine].
      exists [ev_bind (SQLiteStatement.GetAbi self) (Z.of_nat Index + 1) (native_arg value);
              ev_db_handle (SQLiteStatement.GetAbi self);
              ev_extended_errcode
                (sqlite3_db_handle (SQLiteStatement.GetAbi self)
                   (snd (sqlite3_bind (SQLiteStatement.GetAbi self)
                           (Z.of_nat Index + 1) (native_arg value) (engine w))));
              ev_errmsg
                (sqlite3_db_handle (SQLiteStatement.GetAbi self)
                   (snd (sqlite3_bind (SQLiteStatement.GetAbi self)
                           (Z.of_nat Index + 1) (native_arg value) (engine w))))].
      split; [rewrite <- app_assoc; reflexivity|].
      split; [reflexivity|].
      split; [split; discriminate|].
      intros _. eexists. reflexivity.
Qed.

(** [InternalPrepare] for a primitive that returns [status] and stores
    [stmt] through the slot of the handle: the statement holds [stmt]
    whatever the status; it binds the values when the status is
    [SQLITE_OK], and throws the error read from the connection's pointer
    otherwise. *)
Lemma InternalPrepare_run {E} {N : Engine E} {P : Platform}
    (connection : SQLiteConnection.t)
    (prepare : ptr → Buffer → Z → M (World E) (Z * ptr)) (text : Buffer)
    (values : list BindValue) (self : SQLiteStatement.t) (w w1 : World E)
    (status : Z) (stmt : ptr) :
  prepare (SQLiteConnection.GetAbi connection) text (-1) w = (Return (status, stmt), w1) →
  let db := SQLiteConnection.GetAbi connection in
  let prepared := {| SQLiteStatement.m_Handle := {| SQLiteHandle.m_value := stmt |} |} in
  SQLiteStatement.InternalPrepare connection prepare text values (self, w) =
  if status =? SQLITE_OK
  then (fst (SQLiteStatement.BindAll prepared values w1),
        (prepared, snd (SQLiteStatement.BindAll prepared values w1)))
  else (Throw {| ErrorCode := sqlite3_extended_errcode db (engine w1);
                 ErrorMessage := sqlite3_errmsg db (engine w1) |},
        (prepared,
         {| engine := engine w1;
            trace := trace w1 ++ [ev_extended_errcode db; ev_errmsg db] |})).
Proof.
  intros Hprepare. cbv zeta.
  unfold SQLiteStatement.InternalPrepare, SQLiteStatement.ASSERT. run.
  rewrite Hprepare. run.
  unfold SQLiteStatement.on_handle, SQLiteHandle.Set_. run.
  rewrite (Z.eqb_sym SQLITE_OK).
  destruct (status =? SQLITE_OK); cbn [negb].
  - run. destruct (SQLiteStatement.BindAll _ values w1) as [o w2]. reflexivity.
  - unfold SQLiteConnection.ThrowLastError. run. reflexivity.
Qed.

Lemma native_prepare_v2_run {E} {N : Engine E} (db : ptr) (text : Buffer) (nbyte : Z)
    (w : World E) :
  SQLiteStatement.native_prepare_v2 db text nbyte w =
  (Return (fst (fst (sqlite3_prepare_v2 db text nbyte (engine w))),
           snd (fst (sqlite3_prepare_v2 db text nbyte (engine w)))),
   {| engine := snd (sqlite3_prepare_v2 db text nbyte (engine w));
      trace := trace w ++ [ev_prepare_v2 db text nbyte] |}).
Proof.
  unfold SQLiteStatement.native_prepare_v2. rewrite call_run.
  destruct (sqlite3_prepare_v2 db text nbyte (engine w)) as [[status stmt] e1]. reflexivity.
Qed.

Lemma native_prepare16_v2_run {E} {N : Engine E} (db : ptr) (text : Buffer) (nbyte : Z)
    (w : World E) :
  SQLiteStatement.native_prepare16_v2 db text nbyte w =
  (Return (fst (fst (sqlite3_prepare16_v2 db text nbyte (engine w))),
           snd (fst (sqlite3_prepare16_v2 db text nbyte (engine w)))),
   {| engine := snd (sqlite3_prepare16_v2 db text nbyte (engine w));
      trace := trace w ++ [ev_prepare16_v2 db text nbyte] |}).
Proof.
  unfold SQLiteStatement.native_prepare16_v2. rewrite call_run.
  destruct (sqlite3_prepare16_v2 db text nbyte (engine w)) as [[status stmt] e1]. reflexivity.
Qed.

(** What [BindAll] binds, from the world [w0] on, on the statement [stmt]
    in the engine state [e]: the native bind calls are those of the pack
    in its order, the value at index [k] at position [k + 1], up to and
    with the first that the engine refuses; all of them, and the call
    returns, exactly when the engine accepts every one; otherwise the call
    throws. *)
Lemma BindAll_by_engine {E} {N : Engine E} {P : Platform}
    (self : SQLiteStatement.t) (values : list BindValue) (w0 w : World E)
    (before : list Event) :
  32 ≤ size_t_bits →
  Z.of_nat (length values) < 2 ^ 31 →
  trace w = trace w0 ++ before →
  binds before = [] →
  let stmt := SQLiteStatement.GetAbi self in
  let r := SQLiteStatement.BindAll self values w in
  let made := binds (since w0 (snd r)) in
  let rejected := first_rejected stmt 1 (map native_arg values) (engine w) in
  made `prefix_of` positional stmt values ∧
  made = match rejected with
         | None => positional stmt values
         | Some k => take (S k) (positional stmt values)
         end ∧
  (fst r = Return tt ↔ rejected = None) ∧
  (rejected ≠ None → ∃ e, fst r = Throw e).
Proof.
  intros Hbits Hlen Hbefore Hnone. cbv zeta.
  unfold SQLiteStatement.BindAll, SQLiteStatement.InternalBindCpp17, positional.
  destruct (bind_pack_by_engine self values Hbits 0%nat w ltac:(lia))
    as (events & Htrace & Hbinds & Hreturn & Hthrow).
  cbv zeta in Htrace, Hbinds, Hreturn, Hthrow.
  change (Z.of_nat 0 + 1) with 1 in *.
  assert (Hsince : binds (since w0 (snd (SQLiteStatement.bind_pack self 0 values w)))
                   = binds events).
  { rewrite (since_app w0 _ (before ++ events))
      by (rewrite Htrace, Hbefore, <- app_assoc; reflexivity).
    rewrite binds_app, Hnone. reflexivity. }
  rewrite Hsince, Hbinds.
  split; [|split; [reflexivity | split; assumption]].
  destruct (first_rejected _ _ _ _) as [k|]; [|reflexivity].
  eexists. symmetry. apply take_drop.
Qed.

(** C4. [BindAll] (and [InternalBindCpp17] under it) for a pack whose
    positions fit the [int32_t] index.  The native bind calls it makes
    are, in the order made, those of the pack in the pack's order, the
    value at index [k] at position [k + 1], up to and with the first that
    the engine refuses; when the engine accepts every value they are all
    made and [BindAll] returns, and it returns in no other case: it throws
    after the first value refused.  The same holds of the values given to
    [Prepare], for narrow and for wide text: the statement holds the
    pointer that the native prepare stored; when the prepare returns
    [SQLITE_OK] the values are bound to it so, in the state of the engine
    that the prepare left, and [Prepare] returns exactly when the engine
    accepts them all; when the prepare returns another status [Prepare]
    throws and binds nothing. *)
Theorem BindAll_positions {E} {N : Engine E} {P : Platform}
    (self : SQLiteStatement.t) (values : list BindValue) (w : World E) :
  32 ≤ size_t_bits →
  Z.of_nat (length values) < 2 ^ 31 →
  let bound_by (r : Outcome unit * World E) (stmt : ptr) (e : E) : Prop :=
    let made := binds (since w (snd r)) in
    let rejected := first_rejected stmt 1 (map native_arg values) e in
    made `prefix_of` positional stmt values ∧
    made = match rejected with
           | None => positional stmt values
           | Some k => take (S k) (positional stmt values)
           end ∧
    (fst r = Return tt ↔ rejected = None) ∧
    (rejected ≠ None → ∃ e, fst r = Throw e) in
  bound_by (SQLiteStatement.BindAll self values w) (SQLiteStatement.GetAbi self) (engine w) ∧
  ∀ (connection : SQLiteConnection.t) (text : Buffer),
    let db := SQLiteConnection.GetAbi connection in
    let prepared_by (p : Outcome unit * (SQLiteStatement.t * World E))
          (reply : Z * ptr * E) : Prop :=
      let stmt := snd (fst reply) in
      fst (snd p) = {| SQLiteStatement.m_Handle := {| SQLiteHandle.m_value := stmt |} |} ∧
      if fst (fst reply) =? SQLITE_OK
      then bound_by (fst p, snd (snd p)) stmt (snd reply)
      else (∃ e, fst p = Throw e) ∧ binds (since w (snd (snd p))) = [] in
    prepared_by (SQLiteStatement.Prepare connection text values (self, w))
                (sqlite3_prepare_v2 db text (-1) (engine w)) ∧
    prepared_by (SQLiteStatement.Prepare16 connection text values (self, w))
                (sqlite3_prepare16_v2 db text (-1) (engine w)).
Proof.
  intros Hbits Hlen. cbv beta zeta. split.
  - apply (BindAll_by_engine self values w w []); auto. rewrite app_nil_r. reflexivity.
  - intros connection text.
    unfold SQLiteStatement.Prepare, SQLiteStatement.Prepare16.
    rewrite (InternalPrepare_run _ _ _ _ _ _ _ _ _ (native_prepare_v2_run _ _ _ _)).
    rewrite (InternalPrepare_run _ _ _ _ _ _ _ _ _ (native_prepare16_v2_run _ _ _ _)).
    cbv zeta. split.
    + destruct (_ =? SQLITE_OK); cbn [fst snd]; (split; [reflexivity|]).
      * exact (BindAll_by_engine
                 {| SQLiteStatement.m_Handle :=
                      {| SQLiteHandle.m_value :=
                           snd (fst (sqlite3_prepare_v2 (SQLiteConnection.GetAbi connection)
                                       text (-1) (engine w))) |} |}
                 values w
                 {| engine := snd (sqlite3_prepare_v2 (SQLiteConnection.GetAbi connection)
                                     text (-1) (engine w));
                    trace := trace w ++ [ev_prepare_v2 (SQLiteConnection.GetAbi connection)
                                           text (-1)] |}
                 [ev_prepare_v2 (SQLiteConnection.GetAbi connection) text (-1)]
                 Hbits Hlen eq_refl eq_refl).
      * split; [eexists; reflexivity|].
        erewrite since_app by (cbn [trace]; rewrite <- app_assoc; reflexivity).
        reflexivity.
    + destruct (_ =? SQLITE_OK); cbn [fst snd]; (split; [reflexivity|]).
      * exact (BindAll_by_engine
                 {| SQLiteStatement.m_Handle :=
                      {| SQLiteHandle.m_value :=
                           snd (fst (sqlite3_prepare16_v2 (SQLiteConnection.GetAbi connection)
                                       text (-1) (engine w))) |} |}
                 values w
                 {| engine := snd (sqlite3_prepare16_v2 (SQLiteConnection.GetAbi connection)
                                     text (-1) (engine w));
                    trace := trace w ++ [ev_prepare16_v2 (SQLiteConnection.GetAbi connection)
                                           text (-1)] |}
                 [ev_prepare16_v2 (SQLiteConnection.GetAbi connection) text (-1)]
                 Hbits Hlen eq_refl eq_refl).
      * split; [eexists; reflexivity|].
        erewrite since_app by (cbn [trace]; rewrite <- app_assoc; reflexivity).
        reflexivity.
Qed.

(** ** Statements: [Prepare] that fails *)

(** C5, as the code has it.  [Prepare], for narrow and for wide text,
    when the native prepare primitive returns a status other than
    [SQLITE_OK]: it throws the extended error code and the message that the
    engine gives for the connection's native pointer, read in the state
    the prepare left, and makes no other native call: it does not ask for
    the statement's own connection ([sqlite3_db_handle]) and binds no
    value.  The statement holds what the engine stored through the slot,
    so it converts to false exactly when that is the null pointer; the
    code thrown is the connection's, whatever it is.  The same holds of
    [InternalPrepare] for every primitive. *)
Theorem InternalPrepare_failure {E} {N : Engine E} {P : Platform}
    (connection : SQLiteConnection.t) (text : Buffer)
    (values : list BindValue) (self : SQLiteStatement.t) (w : World E) :
  let db := SQLiteConnection.GetAbi connection in
  let failing (p : Outcome unit * (SQLiteStatement.t * World E)) (status : Z) (stmt : ptr)
        (w1 : World E) : Prop :=
    status ≠ SQLITE_OK →
    p = (Throw {| ErrorCode := sqlite3_extended_errcode db (engine w1);
                  ErrorMessage := sqlite3_errmsg db (engine w1) |},
         ({| SQLiteStatement.m_Handle := {| SQLiteHandle.m_value := stmt |} |},
          {| engine := engine w1;
             trace := trace w1 ++ [ev_extended_errcode db; ev_errmsg db] |})) ∧
    (SQLiteStatement.to_bool (fst (snd p)) = false ↔ stmt = nullptr) in
  (let reply := sqlite3_prepare_v2 db text (-1) (engine w) in
   failing (SQLiteStatement.Prepare connection text values (self, w))
     (fst (fst reply)) (snd (fst reply))
     {| engine := snd reply; trace := trace w ++ [ev_prepare_v2 db text (-1)] |}) ∧
  (let reply := sqlite3_prepare16_v2 db text (-1) (engine w) in
   failing (SQLiteStatement.Prepare16 connection text values (self, w))
     (fst (fst reply)) (snd (fst reply))
     {| engine := snd reply; trace := trace w ++ [ev_prepare16_v2 db text (-1)] |}) ∧
  ∀ (prepare : ptr → Buffer → Z → M (World E) (Z * ptr)) (status : Z) (stmt : ptr)
    (w1 : World E),
    prepare db text (-1) w = (Return (status, stmt), w1) →
    failing (SQLiteStatement.InternalPrepare connection prepare text values (self, w))
      status stmt w1.
Proof.
  cbv beta zeta.
  assert (Hany : ∀ (prepare : ptr → Buffer → Z → M (World E) (Z * ptr)) (status : Z)
                   (stmt : ptr) (w1 : World E),
    prepare (SQLiteConnection.GetAbi connection) text (-1) w = (Return (status, stmt), w1) →
    status ≠ SQLITE_OK →
    SQLiteStatement.InternalPrepare connection prepare text values (self, w) =
    (Throw {| ErrorCode := sqlite3_extended_errcode (SQLiteConnection.GetAbi connection)
                             (engine w1);
              ErrorMessage := sqlite3_errmsg (SQLiteConnection.GetAbi connection)
                                (engine w1) |},
     ({| SQLiteStatement.m_Handle := {| SQLiteHandle.m_value := stmt |} |},
      {| engine := engine w1;
         trace := trace w1 ++ [ev_extended_errcode (SQLiteConnection.GetAbi connection);
                               ev_errmsg (SQLiteConnection.GetAbi connection)] |})) ∧
    (SQLiteStatement.to_bool
       (fst (snd (SQLiteStatement.InternalPrepare connection prepare text values (self, w))))
     = false ↔ stmt = nullptr)).
  { intros prepare status stmt w1 Hprepare Hstatus.
    rewrite (InternalPrepare_run _ _ _ _ _ _ _ _ _ Hprepare). cbv zeta.
    destruct (Z.eqb_spec status SQLITE_OK) as [|_]; [contradiction|].
    split; [reflexivity|]. cbn [fst snd].
    unfold SQLiteStatement.to_bool, SQLiteHandle.to_bool. cbn.
    destruct (Z.eqb_spec stmt nullptr); cbn [negb]; split; intros;
      first [assumption | reflexivity | congruence]. }
  split; [|split].
  - apply (Hany SQLiteStatement.native_prepare_v2). apply native_prepare_v2_run.
  - apply (Hany SQLiteStatement.native_prepare16_v2). apply native_prepare16_v2_run.
  - exact Hany.
Qed.

(** C5 as stated fails in the code of the exception: the engine refuses
    the prepare by its status alone, [SQLITE_MISUSE] (21), and has no error
    on record for the connection, as SQLite does when the pointer to the
    text is null; the code thrown is 0.  (The engine stores null, and the
    statement converts to false.) *)
Lemma Prepare_failure_without_code :
  let w := Script.unrecorded [21] in
  let p := SQLiteStatement.Prepare (P := Script.platform 2) Script.connection
             (literal 1 "") [] (SQLiteStatement.default, w) in
  fst (fst (sqlite3_prepare_v2 (SQLiteConnection.GetAbi Script.connection) (literal 1 "")
              (-1) (engine w))) = 21 ∧
  fst p = Throw {| ErrorCode := 0; ErrorMessage := "not an error" |} ∧
  SQLiteStatement.to_bool (fst (snd p)) = false.
Proof. cbv zeta. repeat split. Qed.

(** ** The row iterator *)

Section Iterator.
Context {E : Type} {N : Engine E}.
Variable statements : gmap Z SQLiteStatement.t.

Lemma deref_live {X S} (objects : gmap Z X) (p : ptr) (x : X) (s : S) :
  p ≠ nullptr → objects !! p = Some x → deref objects p s = (Return x, s).
Proof.
  intros Hp Hx. unfold deref.
  destruct (Z.eqb_spec p nullptr); [contradiction|]. rewrite Hx. reflexivity.
Qed.

Lemma deref_null {X S} (objects : gmap Z X) (s : S) :
  deref objects nullptr s = (Undefined, s).
Proof. reflexivity. Qed.

Lemma begin_run (statement : ptr) (s : SQLiteStatement.t) (w : World E) :
  statement ≠ nullptr → statements !! statement = Some s →
  SQLiteRowIterator.begin_ statements statement w =
  (after_step statement (fst (SQLiteStatement.Step s w)), snd (SQLiteStatement.Step s w)).
Proof.
  intros Hp Hs.
  unfold SQLiteRowIterator.begin_, SQLiteRowIterator.construct, noexcept, bind.
  rewrite (deref_live _ _ _ _ Hp Hs).
  destruct (SQLiteStatement.Step s w) as [[[]| | |] w']; reflexivity.
Qed.

Lemma incr_run {S} `{HasWorld E S} (statement : ptr) (s : SQLiteStatement.t) (st : S) :
  statement ≠ nullptr → statements !! statement = Some s →
  with_object {| SQLiteRowIterator.m_Statement := statement |}
    (SQLiteRowIterator.incr statements) st =
  (match after_step statement (fst (SQLiteStatement.Step s (the_world st))) with
   | Return b => Return (tt, b)
   | Throw e => Throw e
   | Terminate => Terminate
   | Undefined => Undefined
   end, set_world (snd (SQLiteStatement.Step s (the_world st))) st).
Proof.
  intros Hp Hs.
  unfold with_object, SQLiteRowIterator.incr, noexcept. unfold_monad. cbn.
  rewrite (deref_live _ _ _ _ Hp Hs). cbn.
  destruct (SQLiteStatement.Step s (the_world st)) as [[[]| | |] w']; reflexivity.
Qed.

Section Rows.
Context {R : Type}.
Variable body : ptr → E → R.

Lemma step_loop_S (fuel : nat) (s : SQLiteStatement.t) (st : list R * World E) :
  step_loop body (S fuel) s st =
  match SQLiteStatement.Step s (snd st) with
  | (Return true, w') => step_loop body fuel s (visited body s (fst st, w'))
  | (Return false, w') => Some (Return tt, (fst st, w'))
  | (Throw e, w') => Some (Throw e, (fst st, w'))
  | (Terminate, w') => Some (Terminate, (fst st, w'))
  | (Undefined, w') => Some (Undefined, (fst st, w'))
  end.
Proof.
  cbn [step_loop]. unfold lift, zoom. cbn.
  destruct (SQLiteStatement.Step s (snd st)) as [[[]| | |] w']; reflexivity.
Qed.

(** A loop on [Step] that is done within a bound is done, with the same
    result, within every greater bound. *)
Lemma step_loop_more_fuel (fuel : nat) (s : SQLiteStatement.t) :
  ∀ (st : list R * World E) r,
    step_loop body fuel s st = Some r → step_loop body (S fuel) s st = Some r.
Proof.
  induction fuel as [|fuel IH]; intros st r; [discriminate|].
  rewrite (step_loop_S (S fuel)), (step_loop_S fuel).
  destruct (SQLiteStatement.Step s (snd st)) as [[[]| | |] w']; auto.
Qed.

(** A loop on [Step] has steps left to make at the bound exactly when the
    engine gave a row at every step so far: it is done as soon as a step
    gives none. *)
Lemma step_loop_unfinished (fuel : nat) (s : SQLiteStatement.t) :
  ∀ st : list R * World E,
    step_loop body fuel s st = None ↔
    all_rows fuel (SQLiteStatement.GetAbi s) (engine (snd st)) = true.
Proof.
  induction fuel as [|fuel IH]; intros st; [split; reflexivity|].
  rewrite step_loop_S, Statement_Step_run. cbv zeta. cbn [all_rows].
  destruct (_ =? SQLITE_ROW); cbn [andb].
  - rewrite IH. reflexivity.
  - destruct (_ =? SQLITE_DONE); [split; discriminate|].
    rewrite Statement_ThrowLastError_run. split; discriminate.
Qed.

(** Past the first step the two loops are one step apart: the iterator has
    stepped to a row that the body has yet to read. *)
Lemma range_for_from_as_step_loop (statement : ptr) (s : SQLiteStatement.t) :
  statement ≠ nullptr → statements !! statement = Some s →
  ∀ (fuel : nat) (st : list R * World E),
    range_for_from statements body fuel statement
      {| SQLiteRowIterator.m_Statement := statement |} st =
    contained (step_loop body fuel s (visited body s st)).
Proof.
  intros Hp Hs. induction fuel as [|fuel IH]; intros st.
  - cbn. unfold SQLiteRowIterator.neq. cbn.
    destruct (Z.eqb_spec statement nullptr); [contradiction|]. reflexivity.
  - rewrite step_loop_S. cbn [range_for_from].
    unfold SQLiteRowIterator.neq, SQLiteRowIterator.end_. cbn [SQLiteRowIterator.m_Statement SQLiteRowIterator.default].
    destruct (Z.eqb_spec statement nullptr); [contradiction|]. cbn [negb].
    assert (Hround :
      with_object {| SQLiteRowIterator.m_Statement := statement |}
        (round statements body) st =
      with_object {| SQLiteRowIterator.m_Statement := statement |}
        (SQLiteRowIterator.incr statements) (visited body s st)).
    { unfold round, with_object, SQLiteRowIterator.star, noexcept. unfold_monad. cbn.
      rewrite (deref_live _ _ _ _ Hp Hs). cbn. reflexivity. }
    rewrite Hround, (incr_run _ _ _ Hp Hs). unfold visited. cbn [the_world set_world world_behind world_itself fst snd].
    destruct (SQLiteStatement.Step s (snd st)) as [[[]| | |] w']; cbn; try reflexivity.
    + apply IH.
    + destruct fuel; reflexivity.
Qed.

(** C6. For a statement alive at a non-null address, the range-based [for]
    over [begin]/[end] and the loop on [Step] do the same at every bound on
    the number of steps: neither is done within the bound, or both are,
    with the same rows read in the same order and the engine and the trace
    left the same; they end alike, except that an exception of [Step]
    ends the program in the iterator, whose members are [noexcept].  The
    loops have steps left at the bound exactly when the engine gave a row
    at every step so far.  The iterator [begin] returns is on the
    statement exactly when the first step gave a row, and is the end
    iterator when it gave none; [++] steps once more and leaves the end
    iterator when that step gives none. *)
Theorem range_for_as_step_loop (statement : ptr) (s : SQLiteStatement.t)
    (fuel : nat) (st : list R * World E) :
  statement ≠ nullptr → statements !! statement = Some s →
  range_for statements body fuel statement st = contained (step_loop body fuel s st) ∧
  (range_for statements body fuel statement st = None ↔
   all_rows fuel (SQLiteStatement.GetAbi s) (engine (snd st)) = true) ∧
  SQLiteRowIterator.begin_ statements statement (snd st) =
    (after_step statement (fst (SQLiteStatement.Step s (snd st))),
     snd (SQLiteStatement.Step s (snd st))) ∧
  fst (with_object {| SQLiteRowIterator.m_Statement := statement |}
         (SQLiteRowIterator.incr statements) (snd st)) =
    match after_step statement (fst (SQLiteStatement.Step s (snd st))) with
    | Return b => Return (tt, b)
    | Throw e => Throw e
    | Terminate => Terminate
    | Undefined => Undefined
    end ∧
  SQLiteRowIterator.neq {| SQLiteRowIterator.m_Statement := statement |}
    (SQLiteRowIterator.end_ statement) = true ∧
  SQLiteRowIterator.neq SQLiteRowIterator.default (SQLiteRowIterator.end_ statement) = false.
Proof.
  intros Hp Hs.
  assert (Hsame : range_for statements body fuel statement st
                  = contained (step_loop body fuel s st)).
  { destruct fuel as [|fuel]; [reflexivity|].
    rewrite step_loop_S. cbn [range_for]. unfold lift, zoom.
    cbn [the_world set_world world_behind world_itself fst snd].
    rewrite (begin_run _ _ _ Hp Hs).
    destruct (SQLiteStatement.Step s (snd st)) as [[[]| | |] w']; cbn; try reflexivity.
    + apply (range_for_from_as_step_loop _ _ Hp Hs).
    + destruct fuel; reflexivity. }
  split; [exact Hsame|]. split; [|split; [|split; [|split]]].
  - rewrite Hsame, <- step_loop_unfinished. unfold contained.
    destruct (step_loop body fuel s st); split; intros; first [discriminate | reflexivity].
  - apply (begin_run _ _ _ Hp Hs).
  - rewrite (incr_run _ _ _ Hp Hs). reflexivity.
  - unfold SQLiteRowIterator.neq. cbn.
    destruct (Z.eqb_spec statement nullptr); [contradiction|reflexivity].
  - reflexivity.
Qed.

End Rows.

(** C10. [SQLiteRowIterator::operator++] dereferences its statement
    pointer without a test.  On an iterator at the end (a null pointer) it
    is undefined, whatever the state.  On an iterator whose pointer is not
    null and refers to a statement that is alive, no null pointer is
    dereferenced: the advance makes the one step; it returns, leaving the
    iterator where it was after a row and at the end after the last, or
    the program terminates because [Step] threw in a [noexcept]
    function. *)
Theorem incr_dereferences_unchecked (it : SQLiteRowIterator.t) (s : SQLiteStatement.t)
    (w : World E) :
  fst (SQLiteRowIterator.incr statements (SQLiteRowIterator.default, w)) = Undefined ∧
  (SQLiteRowIterator.neq it SQLiteRowIterator.default = true →
   statements !! SQLiteRowIterator.m_Statement it = Some s →
   let r := SQLiteRowIterator.incr statements (it, w) in
   fst r ≠ Undefined ∧
   snd (snd r) = snd (SQLiteStatement.Step s w) ∧
   match fst (SQLiteStatement.Step s w) with
   | Return true => fst r = Return tt ∧ fst (snd r) = it
   | Return false => fst r = Return tt ∧ fst (snd r) = SQLiteRowIterator.default
   | _ => fst r = Terminate
   end).
Proof.
  split; [reflexivity|]. intros Hneq Hs. cbv zeta.
  unfold SQLiteRowIterator.neq in Hneq. cbn in Hneq.
  destruct it as [p]. cbn in Hneq, Hs.
  destruct (Z.eqb_spec p nullptr) as [|Hp]; [discriminate|].
  unfold SQLiteRowIterator.incr, noexcept. unfold_monad. cbn.
  rewrite (deref_live _ _ _ _ Hp Hs). cbn.
  destruct (Statement_Step_defined s w) as [Hdefined Hreturns].
  destruct (SQLiteStatement.Step s w) as [[[]| | |] w']; cbn in *;
    try contradiction; repeat apply conj; first [discriminate | reflexivity].
Qed.

End Iterator.

(** ** The reader: lengths in code units *)

Lemma quotient_in_range {P : Platform} (b d : Z) :
  32 ≤ size_t_bits → 0 < d → 0 ≤ b < 2 ^ 31 →
  to_int32 (to_size_t b / d) = b / d.
Proof.
  intros Hbits Hd Hb. unfold to_int32, to_size_t.
  assert (2 ^ 32 ≤ 2 ^ size_t_bits) by (apply Z.pow_le_mono_r; lia).
  rewrite (Z.mod_small b) by lia.
  assert (0 ≤ b / d) by (apply Z.div_pos; lia).
  assert (b / d ≤ b) by (apply Z.div_le_upper_bound; nia).
  rewrite Z.mod_small by lia. lia.
Qed.

(** C8, as the code has it.  For every byte count that the engine gives
    for the UTF-16 text of a column (an [int] that is not negative),
    [GetU16StringLength] is the count divided by 2 and rounded down, and
    [GetWideStringLength] is the count divided by [sizeof(wchar_t)] and
    rounded down, on every platform.  Each is exact, the count being the
    length times the size of the character, exactly when that size divides
    the count: for [GetU16StringLength] when the count is even, as that
    of text is, and for [GetWideStringLength] where [wchar_t] is two bytes
    wide, where the two getters agree.  Otherwise what is left of the
    count, less than one character, is dropped. *)
Theorem wide_length_is_quotient {E} {N : Engine E} {P : Platform} {T} {R : Readable T}
    (self : T) (column : Z) (e : E) :
  32 ≤ size_t_bits →
  0 < sizeof_wchar_t →
  0 ≤ sqlite3_column_bytes16 (GetAbi self) column e < 2 ^ 31 →
  let bytes := sqlite3_column_bytes16 (GetAbi self) column e in
  let u16 := SQLiteReader.GetU16StringLength self column e in
  let wide := SQLiteReader.GetWideStringLength self column e in
  u16 = bytes / 2 ∧
  0 ≤ bytes - 2 * u16 < 2 ∧
  (2 * u16 = bytes ↔ bytes mod 2 = 0) ∧
  wide = bytes / sizeof_wchar_t ∧
  0 ≤ bytes - sizeof_wchar_t * wide < sizeof_wchar_t ∧
  (sizeof_wchar_t * wide = bytes ↔ bytes mod sizeof_wchar_t = 0) ∧
  (sizeof_wchar_t = 2 → wide = u16).
Proof.
  intros Hbits Hwchar Hrange. cbv zeta.
  unfold SQLiteReader.GetU16StringLength, SQLiteReader.GetWideStringLength,
    sizeof_char16_t.
  rewrite !quotient_in_range by lia.
  set (bytes := sqlite3_column_bytes16 _ _ _) in *.
  pose proof (Z.div_mod bytes 2 ltac:(lia)) as H2.
  pose proof (Z.mod_pos_bound bytes 2 ltac:(lia)) as B2.
  assert (Hnonzero : sizeof_wchar_t ≠ 0) by lia.
  pose proof (Z.div_mod bytes sizeof_wchar_t Hnonzero) as Hw.
  pose proof (Z.mod_pos_bound bytes sizeof_wchar_t Hwchar) as Bw.
  repeat apply conj; try reflexivity; try lia.
Qed.

(** C8 as stated fails where [wchar_t] is four bytes wide: for the one
    UTF-16 code unit of a one-letter text, two bytes, [GetWideStringLength]
    is 0, which is neither the byte count divided exactly nor the length
    of the text. *)
Lemma wide_length_not_exact :
  let row := {| SQLiteRow.m_Statement := 9 |} in
  let e := Script.reading 1 2 in
  let n := SQLiteReader.GetWideStringLength (P := Script.platform 4) row 0 e in
  sqlite3_column_bytes16 (GetAbi row) 0 e = 2 ∧
  n = 0 ∧
  n * @sizeof_wchar_t (Script.platform 4) ≠ sqlite3_column_bytes16 (GetAbi row) 0 e.
Proof. cbv zeta. repeat split. discriminate. Qed.

(** ** The reader: text bound and read back *)











(** ** Moving handles *)

Section Moves.
Context {E : Type} {N : Engine E}.

Lemma Handle_destroy_empty {S} `{HasWorld E S} (T : SQLiteHandle.Traits E) (s : S) :
  SQLiteHandle.destroy T (SQLiteHandle.Empty, s) = (Return tt, (SQLiteHandle.Empty, s)).
Proof. reflexivity. Qed.

Lemma Handle_destroy_owning {S} `{HasWorld E S} (T : SQLiteHandle.Traits E)
    (h : SQLiteHandle.t) (s : S) :
  SQLiteHandle.to_bool h = true →
  SQLiteHandle.destroy T (h, s) =
  (fst (SQLiteHandle.Close T (SQLiteHandle.Get h) (the_world s)),
   (h, set_world (snd (SQLiteHandle.Close T (SQLiteHandle.Get h) (the_world s))) s)).
Proof.
  intros Howning. unfold SQLiteHandle.destroy. unfold_monad. cbn.
  rewrite Howning. unfold lift, zoom. cbn.
  destruct (SQLiteHandle.Close T _ _). reflexivity.
Qed.

Lemma Handle_move_construct (h : SQLiteHandle.t) :
  SQLiteHandle.move_construct h = (Return h, SQLiteHandle.Empty).
Proof. destruct h. reflexivity. Qed.

Lemma Handle_move_assign {S} `{HasWorld E S} (T : SQLiteHandle.Traits E)
    (target source : SQLiteHandle.t) (s : S) (w' : World E) :
  (if SQLiteHandle.to_bool target
   then SQLiteHandle.Close T (SQLiteHandle.Get target) (the_world s) = (Return tt, w')
   else w' = the_world s) →
  SQLiteHandle.move_assign T (target, (source, s)) =
  (Return tt, (source, (SQLiteHandle.Empty,
                        if SQLiteHandle.to_bool target then set_world w' s else s))).
Proof.
  intros Hclose. destruct source as [p].
  unfold SQLiteHandle.move_assign, SQLiteHandle.Reset, SQLiteHandle.move_construct.
  unfold_monad. cbn.
  destruct (SQLiteHandle.to_bool target); [|reflexivity].
  unfold lift, zoom. cbn. unfold SQLiteHandle.Get in Hclose. rewrite Hclose. reflexivity.
Qed.

(** C9, on the handle modelled from the spec.  Moving from a handle that
    owns the native pointer [p], by construction or by assignment to a
    handle that holds another pointer [q] (or none): the target then holds
    [p]; the source is Empty, its [Get] is null and it converts to false;
    destroying the source afterwards closes nothing, and destroying the
    target runs the close operation on [p], once.  It is so for every
    closing strategy, and for the connection and the statement, whose
    moves and destructors are their handle's: there the native calls from
    a move assignment to the end of both objects are the close of [q],
    when there is a [q], and then one [sqlite3_close], respectively
    [sqlite3_finalize], of [p]. *)
Theorem move_leaves_source_empty (T : SQLiteHandle.Traits E) (p q : ptr) (w w' : World E) :
  p ≠ nullptr →
  q ≠ p →
  (if q =? nullptr then w' = w else SQLiteHandle.Close T q w = (Return tt, w')) →
  let owner := {| SQLiteHandle.m_value := p |} in
  let other := {| SQLiteHandle.m_value := q |} in
  let connection := {| SQLiteConnection.m_Handle := owner |} in
  let statement := {| SQLiteStatement.m_Handle := owner |} in
  (SQLiteHandle.move_construct owner = (Return owner, SQLiteHandle.Empty) ∧
   SQLiteHandle.move_assign T (other, (owner, w)) =
     (Return tt, (owner, (SQLiteHandle.Empty, w'))) ∧
   SQLiteHandle.Get SQLiteHandle.Empty = nullptr ∧
   SQLiteHandle.to_bool SQLiteHandle.Empty = false ∧
   SQLiteHandle.destroy T (SQLiteHandle.Empty, w') = (Return tt, (SQLiteHandle.Empty, w')) ∧
   SQLiteHandle.destroy T (owner, w') =
     (fst (SQLiteHandle.Close T p w'), (owner, snd (SQLiteHandle.Close T p w')))) ∧
  (let w1 := closed sqlite3_close ev_close q w in
   SQLiteConnection.move_construct connection = (Return connection, SQLiteConnection.default) ∧
   SQLiteConnection.move_assign ({| SQLiteConnection.m_Handle := other |}, (connection, w))
     = (Return tt, (connection, (SQLiteConnection.default, w1))) ∧
   SQLiteConnection.GetAbi SQLiteConnection.default = nullptr ∧
   SQLiteConnection.to_bool SQLiteConnection.default = false ∧
   SQLiteConnection.destroy (SQLiteConnection.default, w1)
     = (Return tt, (SQLiteConnection.default, w1)) ∧
   since w (snd (snd (SQLiteConnection.destroy (connection, w1))))
     = closing q ++ [ev_close p] ∧
   ev_close p ∉ closing q) ∧
  (let w1 := closed sqlite3_finalize ev_finalize q w in
   SQLiteStatement.move_construct statement = (Return statement, SQLiteStatement.default) ∧
   SQLiteStatement.move_assign ({| SQLiteStatement.m_Handle := other |}, (statement, w))
     = (Return tt, (statement, (SQLiteStatement.default, w1))) ∧
   SQLiteStatement.GetAbi SQLiteStatement.default = nullptr ∧
   SQLiteStatement.to_bool SQLiteStatement.default = false ∧
   SQLiteStatement.destroy (SQLiteStatement.default, w1)
     = (Return tt, (SQLiteStatement.default, w1)) ∧
   since w (snd (snd (SQLiteStatement.destroy (statement, w1))))
     = (if q =? nullptr then [] else [ev_finalize q]) ++ [ev_finalize p] ∧
   ev_finalize p ∉ (if q =? nullptr then [] else [ev_finalize q])).
Proof.
  intros Hp Hq Hclose. cbv zeta.
  assert (Howner : SQLiteHandle.to_bool {| SQLiteHandle.m_value := p |} = true).
  { unfold SQLiteHandle.to_bool. cbn. destruct (Z.eqb_spec p nullptr); [contradiction|reflexivity]. }
  split; [|split].
  - repeat apply conj; try reflexivity.
    + rewrite (Handle_move_assign T _ _ w w').
      * unfold SQLiteHandle.to_bool. cbn. destruct (q =? nullptr); cbn; [subst w'|]; reflexivity.
      * unfold SQLiteHandle.to_bool, SQLiteHandle.Get. cbn.
        destruct (q =? nullptr); cbn; assumption.
    + rewrite (Handle_destroy_owning T _ w' Howner). reflexivity.
  - repeat apply conj; try reflexivity.
    + unfold SQLiteConnection.move_assign, zoom. cbn.
      rewrite (Handle_move_assign _ _ _ w (closed sqlite3_close ev_close q w)).
      * unfold SQLiteHandle.to_bool, closed. cbn. destruct (q =? nullptr); reflexivity.
      * unfold SQLiteHandle.to_bool, SQLiteHandle.Get, closed. cbn.
        destruct (q =? nullptr); cbn; [reflexivity|]. run. reflexivity.
    + rewrite Connection_destroy_run. unfold closed, closing, SQLiteConnection.GetAbi. cbn.
      destruct (Z.eqb_spec p nullptr); [contradiction|].
      apply since_app. destruct (q =? nullptr); cbn; [reflexivity|].
      rewrite <- app_assoc. reflexivity.
    + unfold closing. destruct (q =? nullptr); [apply not_elem_of_nil|].
      rewrite list_elem_of_singleton. congruence.
  - repeat apply conj; try reflexivity.
    + unfold SQLiteStatement.move_assign, zoom. cbn.
      rewrite (Handle_move_assign _ _ _ w (closed sqlite3_finalize ev_finalize q w)).
      * unfold SQLiteHandle.to_bool, closed. cbn. destruct (q =? nullptr); reflexivity.
      * unfold SQLiteHandle.to_bool, SQLiteHandle.Get, closed. cbn.
        destruct (q =? nullptr); cbn; [reflexivity|]. run. reflexivity.
    + rewrite Statement_destroy_run. unfold closed, SQLiteStatement.GetAbi. cbn.
      destruct (Z.eqb_spec p nullptr); [contradiction|].
      apply since_app. destruct (q =? nullptr); cbn; [reflexivity|].
      rewrite <- app_assoc. reflexivity.
    + destruct (q =? nullptr); [apply not_elem_of_nil|].
      rewrite list_elem_of_singleton. congruence.
Qed.

End Moves.

(** * The theorems at work on the scripted engine *)

(** C1 at work: the engine answers the backup step with status 5; the
    backup is finished, then the error of the destination is thrown. *)
Lemma Backup_Step_finishes_then_throws_witness :
  SQLiteBackup.Step Script.connections (-1) (Script.backup, Script.world [5]) =
  (Throw {| ErrorCode := 1; ErrorMessage := "error" |},
   ({| SQLiteBackup.m_Handle := SQLiteHandle.Empty; SQLiteBackup.m_Destination := 50 |},
    {| engine := Script.start nullptr [];
       trace := [ev_backup_step 11 (-1); ev_backup_finish 11;
                 ev_extended_errcode 5; ev_errmsg 5] |})).
Proof.
  pose proof (Backup_Step_finishes_then_throws Script.connections (-1) Script.backup
                Script.connection (Script.world [5]) eq_refl) as H.
  cbv zeta in H.
  destruct H as (_ & _ & _ & H); [discriminate | reflexivity |].
  apply H; discriminate.
Defined.

(** C3 at work: [sqlite3_open] fails with status 14 and leaves the handle
    8 in the temporary; the connection still holds 5 and 8 is closed. *)
Lemma InternalOpen_atomic_witness :
  SQLiteConnection.Open {| unit_size := 1; units := [97] |}
    (Script.connection, Script.world_leaving 8 [14]) =
  (Throw {| ErrorCode := 1; ErrorMessage := "error" |},
   (Script.connection,
    {| engine := Script.start 8 [];
       trace := [ev_open {| unit_size := 1; units := [97] |};
                 ev_extended_errcode 8; ev_errmsg 8; ev_close 8] |})).
Proof.
  pose proof (InternalOpen_atomic SQLiteConnection.native_open
                {| unit_size := 1; units := [97] |} Script.connection
                (Script.world_leaving 8 [14])
                {| engine := Script.start 8 [];
                   trace := [ev_open {| unit_size := 1; units := [97] |}] |}
                14 8 eq_refl) as H.
  cbv zeta in H. destruct H as (H & _ & _).
  apply H. discriminate.
Defined.

(** C4 at work: [Prepare] is given an integer, a wide string and a narrow
    literal; the engine accepts them, so [Prepare] returns and they are
    bound at the positions 1, 2 and 3 of the statement the engine made. *)
Lemma BindAll_positions_witness :
  let p := SQLiteStatement.Prepare (P := Script.platform 2) Script.connection
             (literal 1 "SELECT ?, ?, ?")
             [int32_value 42; wstring_ref [65; 66]; char_pointer [67]]
             (SQLiteStatement.default, Script.world []) in
  fst p = Return tt ∧
  binds (since (Script.world []) (snd (snd p))) =
  [(7, 1, bind_int 42);
   (7, 2, bind_text16 {| unit_size := 2; units := [65; 66] |} 4 SQLITE_STATIC);
   (7, 3, bind_text {| unit_size := 1; units := [67] |} (-1) SQLITE_STATIC)].
Proof.
  pose proof (BindAll_positions (P := Script.platform 2) SQLiteStatement.default
                [int32_value 42; wstring_ref [65; 66]; char_pointer [67]]
                (Script.world [])) as H.
  cbv beta zeta in H. destruct H as [_ H]; [discriminate | reflexivity |].
  destruct (H Script.connection (literal 1 "SELECT ?, ?, ?")) as [[_ Hbound] _].
  change (sqlite3_prepare_v2 (SQLiteConnection.GetAbi Script.connection)
            (literal 1 "SELECT ?, ?, ?") (-1) (engine (Script.world [])))
    with (0, 7, Script.start nullptr []) in Hbound.
  change (fst (fst (0, 7, Script.start nullptr [])) =? SQLITE_OK) with true in Hbound.
  cbv iota in Hbound. cbn [fst snd] in Hbound.
  destruct Hbound as (_ & Hmade & Hreturn & _).
  split; [apply Hreturn; reflexivity | rewrite Hmade; reflexivity].
Defined.

(** C5 at work: the prepare of a text that is not SQL fails with status
    1, and the engine has the code 1 on record for the connection. *)
Lemma InternalPrepare_failure_witness :
  SQLiteStatement.Prepare (P := Script.platform 2) Script.connection
    (literal 1 "SELEKT") [int32_value 1] (SQLiteStatement.default, Script.world [1])
  = (Throw {| ErrorCode := 1; ErrorMessage := "error" |},
     (SQLiteStatement.default,
      {| engine := Script.start nullptr [];
         trace := [ev_prepare_v2 5 (literal 1 "SELEKT") (-1);
                   ev_extended_errcode 5; ev_errmsg 5] |})).
Proof.
  pose proof (InternalPrepare_failure (P := Script.platform 2) Script.connection
                (literal 1 "SELEKT") [int32_value 1] SQLiteStatement.default
                (Script.world [1])) as H.
  cbv beta zeta in H. destruct H as (H & _ & _).
  destruct H as [H _]; [discriminate|]. exact H.
Defined.

(** C6 at work: two rows, then done; both loops read the first column of
    each row. *)
Lemma range_for_as_step_loop_witness :
  range_for Script.statements Script.first_column 5 40 ([], Script.world [100; 100; 101])
  = contained (step_loop Script.first_column 5 Script.statement
                 ([], Script.world [100; 100; 101])) ∧
  option_map (fun r => fst (snd r))
    (range_for Script.statements Script.first_column 5 40
       ([], Script.world [100; 100; 101])) = Some [10; 20].
Proof.
  pose proof (range_for_as_step_loop Script.statements Script.first_column 40
                Script.statement 5 ([], Script.world [100; 100; 101])) as H.
  destruct H as (H & _); [discriminate | reflexivity |].
  split; [exact H|]. rewrite H. reflexivity.
Defined.


(** C8 at work: where [wchar_t] is two bytes wide, six bytes are three
    characters for both getters, and of seven bytes, the count of a blob,
    the last is dropped. *)
Lemma wide_length_is_quotient_witness :
  (SQLiteReader.GetWideStringLength (P := Script.platform 2)
     {| SQLiteRow.m_Statement := 9 |} 0 (Script.reading 3 6) = 3 ∧
   SQLiteReader.GetU16StringLength (P := Script.platform 2)
     {| SQLiteRow.m_Statement := 9 |} 0 (Script.reading 3 6) = 3) ∧
  SQLiteReader.GetU16StringLength (P := Script.platform 2)
    {| SQLiteRow.m_Statement := 9 |} 0 (Script.reading 7 7) = 3.
Proof.
  pose proof (wide_length_is_quotient (P := Script.platform 2)
                {| SQLiteRow.m_Statement := 9 |} 0 (Script.reading 3 6)) as H.
  pose proof (wide_length_is_quotient (P := Script.platform 2)
                {| SQLiteRow.m_Statement := 9 |} 0 (Script.reading 7 7)) as H'.
  cbv zeta in H, H'.
  destruct H as (Hu16 & _ & _ & Hwide & _);
    [discriminate | reflexivity | split; [discriminate | reflexivity] |].
  destruct H' as (Hodd & _);
    [discriminate | reflexivity | split; [discriminate | reflexivity] |].
  split; [split; [rewrite Hwide | rewrite Hu16] | rewrite Hodd]; reflexivity.
Defined.

(** C9 at work: a connection on 5 is move-assigned to one on 6, which is
    closed; then the source is empty and the target holds 5. *)
Lemma move_leaves_source_empty_witness :
  SQLiteConnection.move_assign
    ({| SQLiteConnection.m_Handle := {| SQLiteHandle.m_value := 6 |} |},
     (Script.connection, Script.world []))
  = (Return tt,
     (Script.connection,
      (SQLiteConnection.default,
       {| engine := Script.start nullptr []; trace := [ev_close 6] |}))).
Proof.
  pose proof (move_leaves_source_empty SQLiteConnection.SQLiteConnectionHandleTraits 5 6
                (Script.world [])
                {| engine := Script.start nullptr []; trace := [ev_close 6] |}) as H.
  cbv zeta in H.
  destruct H as (_ & (_ & H & _) & _); [discriminate | discriminate | reflexivity |].
  exact H.
Defined.

(** C10 at work: an iterator on the statement at address 40 advances to
    the end when the step says done. *)
Lemma incr_dereferences_unchecked_witness :
  fst (SQLiteRowIterator.incr Script.statements
         (SQLiteRowIterator.default, Script.world [101])) = Undefined ∧
  fst (snd (SQLiteRowIterator.incr Script.statements
              ({| SQLiteRowIterator.m_Statement := 40 |}, Script.world [101])))
  = SQLiteRowIterator.default.
Proof.
  pose proof (incr_dereferences_unchecked Script.statements
                {| SQLiteRowIterator.m_Statement := 40 |} Script.statement
                (Script.world [101])) as H.
  destruct H as (Hend & H). split; [exact Hend|].
  destruct (H eq_refl eq_refl) as (_ & _ & Hdone). exact (proj2 Hdone).
Defined.

(** * Further properties of [SQLite.h] *)

(** ** Type names *)

(** X1. [SQLiteTypeName] tells the types apart: two values get the same
    name exactly when they are equal or neither is an enumerator, and the
    name is ["Invalid"] exactly for a value that is no enumerator, as a
    type code of the engine may be.  [SQLiteU8TypeName] and
    [SQLiteU16TypeName] give the same characters, in their own widths. *)
Theorem type_names_tell_types_apart (a b : Z) :
  (SQLiteTypeName a = SQLiteTypeName b ↔ a = b ∨ (¬ enumerator a ∧ ¬ enumerator b)) ∧
  (SQLiteTypeName a = literal 1 "Invalid" ↔ ¬ enumerator a) ∧
  units (SQLiteU8TypeName a) = units (SQLiteTypeName a) ∧
  units (SQLiteU16TypeName a) = units (SQLiteTypeName a) ∧
  unit_size (SQLiteU8TypeName a) = sizeof_char8_t ∧
  unit_size (SQLiteU16TypeName a) = sizeof_char16_t.
Proof.
  unfold SQLiteTypeName, SQLiteU8TypeName, SQLiteU16TypeName, enumerator,
    SQLiteType.Integer, SQLiteType.Float, SQLiteType.Blob, SQLiteType.Null,
    SQLiteType.Text.
  assert (Hno : ∀ x, x ≠ 1 → x ≠ 2 → x ≠ 4 → x ≠ 5 → x ≠ 3 →
                 ¬ (x = 1 ∨ x = 2 ∨ x = 4 ∨ x = 5 ∨ x = 3)) by (intros; lia).
  destruct (Z.eqb_spec a 1); [|destruct (Z.eqb_spec a 2); [|destruct (Z.eqb_spec a 4);
    [|destruct (Z.eqb_spec a 5); [|destruct (Z.eqb_spec a 3)]]]];
  (destruct (Z.eqb_spec b 1); [|destruct (Z.eqb_spec b 2); [|destruct (Z.eqb_spec b 4);
    [|destruct (Z.eqb_spec b 5); [|destruct (Z.eqb_spec b 3)]]]]);
  (split; [|split; [|repeat apply conj; reflexivity]]); split; intros H;
  first [ reflexivity
        | now (vm_compute in H; discriminate H)
        | now (left; lia)
        | now (right; split; apply Hno; assumption)
        | now (apply Hno; assumption)
        | now (exfalso; lia)
        | now (exfalso; apply H; lia)
        | now (exfalso; destruct H as [H|[Ha Hb]]; [lia | first [apply Ha; lia | apply Hb; lia]]) ].
Qed.

(** ** The reader *)

(** The conversions of a byte count to [size_t] and back to [int32_t] undo
    each other. *)
Lemma int32_through_size_t {P : Platform} (b : Z) :
  32 ≤ size_t_bits → - 2 ^ 31 ≤ b < 2 ^ 31 → to_int32 (to_size_t b / 1) = b.
Proof.
  intros Hbits Hb. unfold to_int32, to_size_t. rewrite Z.div_1_r.
  assert (Hdiv : (2 ^ 32 | 2 ^ size_t_bits)).
  { exists (2 ^ (size_t_bits - 32)). rewrite <- Z.pow_add_r by lia. f_equal. lia. }
  assert (0 < 2 ^ size_t_bits) by (apply Z.pow_pos_nonneg; lia).
  rewrite (Z.add_mod (b mod _)) by lia.
  rewrite Z.mod_mod_divide by assumption.
  rewrite <- Z.add_mod by lia.
  rewrite Z.mod_small by lia. lia.
Qed.

(** X2. The three byte-length getters agree: for every [int] the engine
    gives as the byte count of a column, [GetU8StringLength],
    [GetStringLength] and [GetBlobLength] return that count; the division
    by [sizeof(char8_t)] and its conversions change nothing. *)
Theorem byte_lengths_agree {E} {N : Engine E} {P : Platform} {T} {R : Readable T}
    (self : T) (column : Z) (e : E) :
  32 ≤ size_t_bits →
  - 2 ^ 31 ≤ sqlite3_column_bytes (GetAbi self) column e < 2 ^ 31 →
  SQLiteReader.GetU8StringLength self column e = sqlite3_column_bytes (GetAbi self) column e ∧
  SQLiteReader.GetStringLength self column e = sqlite3_column_bytes (GetAbi self) column e ∧
  SQLiteReader.GetBlobLength self column e = sqlite3_column_bytes (GetAbi self) column e.
Proof.
  intros Hbits Hrange. unfold SQLiteReader.GetU8StringLength, sizeof_char8_t.
  rewrite int32_through_size_t by assumption. repeat split.
Qed.

Lemma byte_lengths_agree_witness :
  SQLiteReader.GetU8StringLength (P := Script.platform 2)
    {| SQLiteRow.m_Statement := 9 |} 0 (Script.reading 3 6) = 3.
Proof.
  pose proof (byte_lengths_agree (P := Script.platform 2) {| SQLiteRow.m_Statement := 9 |} 0
                (Script.reading 3 6)) as H.
  destruct H as (H & _); [discriminate | cbn; lia |]. exact H.
Defined.

(** X3. A row is a view of its statement, not a copy of the row.  On an
    iterator that is on a statement alive in the store, [operator*]
    returns a row on the statement's native pointer and leaves the state
    as it is; after an advance that leaves the iterator on the statement
    it returns that same row, so that a row kept across the advance reads
    the new position.  Each getter of the reader that can be instantiated
    (all but [GetU8String]) gives through the row what it gives through
    the statement, in every state of the engine.  On the end iterator
    [operator*] is undefined. *)
Theorem row_reads_as_statement {E} {N : Engine E} {P : Platform} {S}
    (statements : gmap Z SQLiteStatement.t) (it : SQLiteRowIterator.t)
    (s : SQLiteStatement.t) (st : S) (w : World E) :
  SQLiteRowIterator.m_Statement it ≠ nullptr →
  statements !! SQLiteRowIterator.m_Statement it = Some s →
  let row := {| SQLiteRow.m_Statement := SQLiteStatement.GetAbi s |} in
  let advanced := SQLiteRowIterator.incr statements (it, w) in
  SQLiteRowIterator.star statements it st = (Return row, st) ∧
  fst (SQLiteRowIterator.star statements SQLiteRowIterator.default st) = Undefined ∧
  (fst advanced = Return tt →
   SQLiteRowIterator.neq (fst (snd advanced)) SQLiteRowIterator.default = true →
   SQLiteRowIterator.star statements (fst (snd advanced)) (snd (snd advanced))
   = (Return row, snd (SQLiteStatement.Step s w))) ∧
  ∀ (column : Z) (e : E),
    SQLiteReader.GetInt32 row column e = SQLiteReader.GetInt32 s column e ∧
    SQLiteReader.GetInt64 row column e = SQLiteReader.GetInt64 s column e ∧
    SQLiteReader.GetDouble row column e = SQLiteReader.GetDouble s column e ∧
    SQLiteReader.GetBlob row column e = SQLiteReader.GetBlob s column e ∧
    SQLiteReader.GetString row column e = SQLiteReader.GetString s column e ∧
    SQLiteReader.GetWideString row column e = SQLiteReader.GetWideString s column e ∧
    SQLiteReader.GetU16String row column e = SQLiteReader.GetU16String s column e ∧
    SQLiteReader.GetBlobLength row column e = SQLiteReader.GetBlobLength s column e ∧
    SQLiteReader.GetStringLength row column e = SQLiteReader.GetStringLength s column e ∧
    SQLiteReader.GetWideStringLength row column e
      = SQLiteReader.GetWideStringLength s column e ∧
    SQLiteReader.GetU8StringLength row column e = SQLiteReader.GetU8StringLength s column e ∧
    SQLiteReader.GetU16StringLength row column e
      = SQLiteReader.GetU16StringLength s column e ∧
    SQLiteReader.GetType row column e = SQLiteReader.GetType s column e.
Proof.
  intros Hp Hs. cbv zeta.
  assert (Hstar : ∀ (S' : Type) (st' : S'),
    SQLiteRowIterator.star statements it st'
    = (Return {| SQLiteRow.m_Statement := SQLiteStatement.GetAbi s |}, st')).
  { intros S' st'. unfold SQLiteRowIterator.star, noexcept, bind.
    rewrite (deref_live _ _ _ _ Hp Hs). reflexivity. }
  split; [apply Hstar|]. split; [reflexivity|]. split.
  - destruct it as [p]. cbn [SQLiteRowIterator.m_Statement] in Hp, Hs.
    unfold SQLiteRowIterator.incr, noexcept. unfold_monad. cbn.
    rewrite (deref_live _ _ _ _ Hp Hs). cbn.
    destruct (SQLiteStatement.Step s w) as [[[]| | |] w']; cbn;
      intros Hreturn Hneq; try discriminate.
    apply Hstar.
  - intros column e. repeat split.
Qed.

(** X3 at work: the iterator on the statement at the address 40 advances
    to a second row, and gives the row on the native pointer 9 as
    before. *)
Lemma row_reads_as_statement_witness :
  let advanced := SQLiteRowIterator.incr Script.statements
                    ({| SQLiteRowIterator.m_Statement := 40 |}, Script.world [100]) in
  SQLiteRowIterator.star Script.statements {| SQLiteRowIterator.m_Statement := 40 |}
    (Script.world [100])
  = (Return {| SQLiteRow.m_Statement := 9 |}, Script.world [100]) ∧
  fst (SQLiteRowIterator.star Script.statements (fst (snd advanced)) (snd (snd advanced)))
  = Return {| SQLiteRow.m_Statement := 9 |}.
Proof.
  pose proof (row_reads_as_statement (P := Script.platform 2) Script.statements
                {| SQLiteRowIterator.m_Statement := 40 |} Script.statement
                (Script.world [100]) (Script.world [100])) as H.
  cbv zeta in H.
  destruct H as (Hstar & _ & Hadvanced & _); [discriminate | reflexivity |].
  split; [exact Hstar|]. cbv zeta. rewrite Hadvanced; reflexivity.
Defined.

(** ** Statements: [Reset] and [Bind] *)

(** X4. [Reset], and [Bind] of every kind of value, make one native call
    and return exactly when it returns [SQLITE_OK]; otherwise they throw
    the extended code and the message of the connection that
    [sqlite3_db_handle] names for the statement then, asked after the
    failing call.  No connection that the statement was prepared with is
    used. *)
Theorem Reset_and_Bind_throw_the_owner_s_error {E} {N : Engine E} {P : Platform}
    (self : SQLiteStatement.t) (index : Z) (value : BindValue) (w : World E) :
  let stmt := SQLiteStatement.GetAbi self in
  let failure (ev : Event) (e1 : E) : Outcome unit * World E :=
    (Throw {| ErrorCode := sqlite3_extended_errcode (sqlite3_db_handle stmt e1) e1;
              ErrorMessage := sqlite3_errmsg (sqlite3_db_handle stmt e1) e1 |},
     {| engine := e1;
        trace := trace w ++ [ev; ev_db_handle stmt;
                             ev_extended_errcode (sqlite3_db_handle stmt e1);
                             ev_errmsg (sqlite3_db_handle stmt e1)] |}) in
  SQLiteStatement.Reset self w =
    (if fst (sqlite3_reset stmt (engine w)) =? SQLITE_OK
     then (Return tt, {| engine := snd (sqlite3_reset stmt (engine w));
                         trace := trace w ++ [ev_reset stmt] |})
     else failure (ev_reset stmt) (snd (sqlite3_reset stmt (engine w)))) ∧
  SQLiteStatement.Bind self index value w =
    (if fst (sqlite3_bind stmt index (native_arg value) (engine w)) =? SQLITE_OK
     then (Return tt,
           {| engine := snd (sqlite3_bind stmt index (native_arg value) (engine w));
              trace := trace w ++ [ev_bind stmt index (native_arg value)] |})
     else failure (ev_bind stmt index (native_arg value))
            (snd (sqlite3_bind stmt index (native_arg value) (engine w)))).
Proof.
  cbv zeta. split.
  - unfold SQLiteStatement.Reset. run. rewrite (Z.eqb_sym SQLITE_OK).
    destruct (_ =? SQLITE_OK); cbn [negb]; [reflexivity|].
    rewrite Statement_ThrowLastError_run. cbn. rewrite <- app_assoc. reflexivity.
  - rewrite Bind_native_arg, native_bind_run. cbv zeta.
    destruct (_ =? SQLITE_OK); [reflexivity|].
    rewrite Statement_ThrowLastError_run. cbn. rewrite <- app_assoc. reflexivity.
Qed.

Lemma Bind_first_event {E} {N : Engine E} {P : Platform} (self : SQLiteStatement.t)
    (index : Z) (value : BindValue) (w : World E) :
  head (since w (snd (SQLiteStatement.Bind self index value w)))
  = Some (ev_bind (SQLiteStatement.GetAbi self) index (native_arg value)).
Proof.
  rewrite Bind_native_arg, native_bind_run. cbv zeta.
  destruct (_ =? SQLITE_OK).
  - cbn [snd]. rewrite (since_app w _ [ev_bind (SQLiteStatement.GetAbi self) index
                                        (native_arg value)]) by reflexivity.
    reflexivity.
  - rewrite Statement_ThrowLastError_run. cbv zeta. cbn [snd].
    erewrite since_app by (cbn [trace]; rewrite <- app_assoc; reflexivity).
    reflexivity.
Qed.

(** X5. The [std::basic_string] overloads of [Bind] give the engine the
    length of the string in bytes, the number of characters times the size
    of one, whenever that is less than 2^31; so the engine is told to take
    the whole string, not to look for a terminator.  A string bound by
    reference is bound [SQLITE_STATIC] and an rvalue [SQLITE_TRANSIENT];
    narrow and UTF-8 strings go to [sqlite3_bind_text], wide and UTF-16
    strings to [sqlite3_bind_text16].  The native call named is the first
    that [Bind] makes. *)
Theorem string_binds_pass_byte_length {E} {N : Engine E} {P : Platform}
    (self : SQLiteStatement.t) (index : Z) (text : list Z) (w : World E) :
  32 ≤ size_t_bits →
  0 < sizeof_wchar_t →
  Z.of_nat (length text) * Z.max 2 sizeof_wchar_t < 2 ^ 31 →
  let n := Z.of_nat (length text) in
  let buffer unit := {| unit_size := unit; units := text |} in
  let first value := head (since w (snd (SQLiteStatement.Bind self index value w))) in
  let native arg := Some (ev_bind (SQLiteStatement.GetAbi self) index arg) in
  first (string_ref text) = native (bind_text (buffer 1) n SQLITE_STATIC) ∧
  first (u8string_ref text) = native (bind_text (buffer 1) n SQLITE_STATIC) ∧
  first (wstring_ref text)
    = native (bind_text16 (buffer sizeof_wchar_t) (n * sizeof_wchar_t) SQLITE_STATIC) ∧
  first (u16string_ref text) = native (bind_text16 (buffer 2) (n * 2) SQLITE_STATIC) ∧
  first (string_rvalue text) = native (bind_text (buffer 1) n SQLITE_TRANSIENT) ∧
  first (u8string_rvalue text) = native (bind_text (buffer 1) n SQLITE_TRANSIENT) ∧
  first (wstring_rvalue text)
    = native (bind_text16 (buffer sizeof_wchar_t) (n * sizeof_wchar_t) SQLITE_TRANSIENT) ∧
  first (u16string_rvalue text) = native (bind_text16 (buffer 2) (n * 2) SQLITE_TRANSIENT).
Proof.
  intros Hbits Hwchar Hlen. cbv beta zeta. rewrite !Bind_first_event.
  assert (Hn : 0 ≤ Z.of_nat (length text)) by lia.
  assert (Hsize : SQLiteStatement.size text = Z.of_nat (length text)).
  { unfold SQLiteStatement.size, to_size_t.
    assert (2 ^ 32 ≤ 2 ^ size_t_bits) by (apply Z.pow_le_mono_r; lia).
    apply Z.mod_small. nia. }
  assert (Hpos : ∀ k, 0 ≤ k < 2 ^ 31 → to_int32 (to_size_t k) = k)
    by (intros; apply position_in_range; assumption).
  assert (Hplain : ∀ k, 0 ≤ k < 2 ^ 31 → to_int32 k = k).
  { intros k Hk. unfold to_int32. rewrite Z.mod_small by lia. lia. }
  unfold native_arg, sizeof_char8_t, sizeof_char16_t. rewrite !Hsize.
  rewrite !Z.mul_1_r, !Hpos, !Hplain by nia.
  repeat split.
Qed.

Lemma string_binds_pass_byte_length_witness :
  head (since (Script.world [])
          (snd (SQLiteStatement.Bind (P := Script.platform 2) Script.statement 1
                  (wstring_rvalue [65; 66; 67]) (Script.world []))))
  = Some (ev_bind 9 1
            (bind_text16 {| unit_size := 2; units := [65; 66; 67] |} 6 SQLITE_TRANSIENT)).
Proof.
  pose proof (string_binds_pass_byte_length (P := Script.platform 2) Script.statement 1
                [65; 66; 67] (Script.world [])) as H.
  cbv beta zeta in H.
  destruct H as (_ & _ & _ & _ & _ & _ & H & _); [discriminate | reflexivity | reflexivity |].
  exact H.
Defined.

(** ** The deprecated binding path *)

Lemma InternalBind_as_bind_pack {E} {N : Engine E} {P : Platform}
    (self : SQLiteStatement.t) (values : list BindValue) :
  32 ≤ size_t_bits →
  ∀ (Index : nat) (w : World E),
    Z.of_nat Index + Z.of_nat (length values) + 1 < 2 ^ 31 →
    InternalBind self (Z.of_nat Index + 1) values w
    = SQLiteStatement.bind_pack self Index values w.
Proof.
  intros Hbits. induction values as [|value rest IH]; intros Index w Hlen; [reflexivity|].
  cbn [length] in Hlen.
  rewrite bind_pack_cons. cbv zeta. rewrite position_in_range by lia.
  cbn [InternalBind]. unfold bind at 1.
  rewrite Bind_native_arg, native_bind_run. cbv zeta.
  destruct (_ =? SQLITE_OK).
  - unfold INT_MAX. destruct (Z.leb_spec (Z.of_nat Index + 1 + 1) (2 ^ 31 - 1)); [|lia].
    replace (Z.of_nat Index + 1 + 1) with (Z.of_nat (S Index) + 1) by lia.
    apply IH. lia.
  - rewrite !Statement_ThrowLastError_run. reflexivity.
Qed.

(** X6. The deprecated recursive [InternalBind], started at index 1, does
    what [BindAll] does, for every pack whose positions stay below
    [INT_MAX]: the same native calls in the same order, the same outcome
    and the same state of the engine. *)
Theorem InternalBind_as_BindAll {E} {N : Engine E} {P : Platform}
    (self : SQLiteStatement.t) (values : list BindValue) (w : World E) :
  32 ≤ size_t_bits →
  Z.of_nat (length values) + 1 < 2 ^ 31 →
  InternalBind self 1 values w = SQLiteStatement.BindAll self values w.
Proof.
  intros Hbits Hlen.
  apply (InternalBind_as_bind_pack self values Hbits 0%nat w). lia.
Qed.

Lemma InternalBind_as_BindAll_witness :
  InternalBind (P := Script.platform 2) Script.statement 1
    [int32_value 42; string_ref [65]] (Script.world [0; 1])
  = SQLiteStatement.BindAll (P := Script.platform 2) Script.statement
      [int32_value 42; string_ref [65]] (Script.world [0; 1]).
Proof.
  apply (InternalBind_as_BindAll (P := Script.platform 2) Script.statement
           [int32_value 42; string_ref [65]] (Script.world [0; 1]));
    [discriminate | reflexivity].
Defined.

(** ** Backups: construction and destruction *)

Lemma Backup_Step_run {E} {N : Engine E} (connections : gmap Z SQLiteConnection.t)
    (pages : Z) (self : SQLiteBackup.t) (destination : SQLiteConnection.t) (w : World E) :
  SQLiteHandle.to_bool (SQLiteBackup.m_Handle self) = true →
  SQLiteBackup.m_Destination self ≠ nullptr →
  connections !! SQLiteBackup.m_Destination self = Some destination →
  let backup := SQLiteBackup.GetAbi self in
  let status := fst (sqlite3_backup_step backup pages (engine w)) in
  let e1 := snd (sqlite3_backup_step backup pages (engine w)) in
  let e2 := snd (sqlite3_backup_finish backup e1) in
  let db := SQLiteConnection.GetAbi destination in
  SQLiteBackup.Step connections pages (self, w) =
  if status =? SQLITE_OK
  then (Return true, (self, {| engine := e1; trace := trace w ++ [ev_backup_step backup pages] |}))
  else if status =? SQLITE_DONE
  then (Return false, (self, {| engine := e1; trace := trace w ++ [ev_backup_step backup pages] |}))
  else (Throw {| ErrorCode := sqlite3_extended_errcode db e2;
                 ErrorMessage := sqlite3_errmsg db e2 |},
        ({| SQLiteBackup.m_Handle := SQLiteHandle.Empty;
            SQLiteBackup.m_Destination := SQLiteBackup.m_Destination self |},
         {| engine := e2;
            trace := trace w ++ [ev_backup_step backup pages; ev_backup_finish backup;
                                 ev_extended_errcode db; ev_errmsg db] |})).
Proof.
  intros Howning Hnonnull Hlive. cbv zeta.
  unfold SQLiteBackup.Step. run.
  destruct (_ =? SQLITE_OK); [reflexivity|].
  destruct (_ =? SQLITE_DONE); [reflexivity|].
  unfold SQLiteBackup.on_handle, SQLiteHandle.Reset. run.
  rewrite Howning. run.
  unfold deref. destruct (Z.eqb_spec (SQLiteBackup.m_Destination self) nullptr) as [|_];
    [contradiction|].
  rewrite Hlive. unfold SQLiteConnection.ThrowLastError. run.
  rewrite <- !app_assoc. reflexivity.
Qed.

Lemma Backup_destroy_run {E} {N : Engine E} (self : SQLiteBackup.t) (w : World E) :
  SQLiteBackup_destroy (self, w) =
  (Return tt,
   (self, closed sqlite3_backup_finish ev_backup_finish (SQLiteBackup.GetAbi self) w)).
Proof.
  destruct self as [[p] d].
  unfold SQLiteBackup_destroy, SQLiteBackup.on_handle, SQLiteHandle.destroy, closed,
    SQLiteHandle.to_bool, SQLiteBackup.GetAbi, SQLiteHandle.Get.
  run. destruct (p =? nullptr); run; reflexivity.
Qed.

(** X7. The constructor of a backup: with the destination and the source
    alive, it asks the engine for a backup between their native pointers;
    when the engine gives null it throws the error read from the
    destination and returns no backup, otherwise it returns a backup that
    owns what the engine gave and points to the destination.  A backup
    that exists therefore owns a handle. *)
Theorem Backup_construct_by_handle {E} {N : Engine E}
    (connections : gmap Z SQLiteConnection.t) (destination source : ptr)
    (d s : SQLiteConnection.t) (destinationName sourceName : Buffer) (w : World E) :
  destination ≠ nullptr → connections !! destination = Some d →
  source ≠ nullptr → connections !! source = Some s →
  let dst := SQLiteConnection.GetAbi d in
  let src := SQLiteConnection.GetAbi s in
  let b := fst (sqlite3_backup_init dst destinationName src sourceName (engine w)) in
  let e1 := snd (sqlite3_backup_init dst destinationName src sourceName (engine w)) in
  let init := ev_backup_init dst destinationName src sourceName in
  SQLiteBackup.construct connections destination source destinationName sourceName w =
  if b =? nullptr
  then (Throw {| ErrorCode := sqlite3_extended_errcode dst e1;
                 ErrorMessage := sqlite3_errmsg dst e1 |},
        {| engine := e1;
           trace := trace w ++ [init; ev_extended_errcode dst; ev_errmsg dst] |})
  else (Return {| SQLiteBackup.m_Handle := {| SQLiteHandle.m_value := b |};
                  SQLiteBackup.m_Destination := destination |},
        {| engine := e1; trace := trace w ++ [init] |}).
Proof.
  intros Hd Hdlive Hs Hslive. cbv zeta.
  unfold SQLiteBackup.construct, bind.
  rewrite (deref_live _ _ _ _ Hd Hdlive), (deref_live _ _ _ _ Hs Hslive).
  rewrite call_run. unfold SQLiteHandle.to_bool. cbn [SQLiteBackup.m_Handle SQLiteHandle.m_value].
  destruct (_ =? nullptr); cbn [negb]; [|reflexivity].
  unfold SQLiteConnection.ThrowLastError. rewrite throw_from_run. cbn.
  rewrite <- app_assoc. reflexivity.
Qed.

Lemma Backup_construct_by_handle_witness :
  SQLiteBackup.construct Script.connections 50 50 (literal 1 "main") (literal 1 "main")
    (Script.world [])
  = (Return {| SQLiteBackup.m_Handle := {| SQLiteHandle.m_value := 7 |};
               SQLiteBackup.m_Destination := 50 |},
     {| engine := Script.start nullptr [];
        trace := [ev_backup_init 5 (literal 1 "main") 5 (literal 1 "main")] |}).
Proof.
  pose proof (Backup_construct_by_handle Script.connections 50 50 Script.connection
                Script.connection (literal 1 "main") (literal 1 "main") (Script.world []))
    as H.
  cbv zeta in H. apply H; first [discriminate | reflexivity].
Defined.

(** X8. A backup is finished exactly once.  For a backup that owns its
    handle and whose destination is alive, from a call of [Step] to the end
    of the backup's life [sqlite3_backup_finish] is called on its handle
    exactly once, whatever the status of the step: by the destructor after
    a step that returned, and by [Step] itself, not again by the
    destructor, after a step that threw. *)
Theorem Backup_finished_once {E} {N : Engine E}
    (connections : gmap Z SQLiteConnection.t) (pages : Z)
    (self : SQLiteBackup.t) (destination : SQLiteConnection.t) (w : World E) :
  SQLiteHandle.to_bool (SQLiteBackup.m_Handle self) = true →
  SQLiteBackup.m_Destination self ≠ nullptr →
  connections !! SQLiteBackup.m_Destination self = Some destination →
  let stepped := SQLiteBackup.Step connections pages (self, w) in
  let ended := SQLiteBackup_destroy (snd stepped) in
  fst ended = Return tt ∧
  finished (since w (snd (snd ended))) = [SQLiteBackup.GetAbi self] ∧
  finished (since w (snd (snd (SQLiteBackup_destroy (self, w))))) = [SQLiteBackup.GetAbi self].
Proof.
  intros Howning Hnonnull Hlive. cbv zeta.
  rewrite (Backup_Step_run _ _ _ _ _ Howning Hnonnull Hlive). cbv zeta.
  assert (Hp : (SQLiteBackup.GetAbi self =? nullptr) = false).
  { unfold SQLiteHandle.to_bool in Howning. unfold SQLiteBackup.GetAbi, SQLiteHandle.Get.
    destruct (_ =? nullptr); [discriminate|reflexivity]. }
  destruct (_ =? SQLITE_OK); [|destruct (_ =? SQLITE_DONE)]; cbn [fst snd];
    rewrite !Backup_destroy_run; cbn [fst snd];
    unfold closed; cbn [SQLiteBackup.GetAbi SQLiteBackup.m_Handle SQLiteHandle.Get
                          SQLiteHandle.Empty SQLiteHandle.m_value] in *;
    rewrite ?Hp; cbn [trace];
    (split; [reflexivity|split]);
    (erewrite since_app by (rewrite <- ?app_assoc; reflexivity); reflexivity).
Qed.

Lemma Backup_finished_once_witness :
  finished (since (Script.world [5])
              (snd (snd (SQLiteBackup_destroy
                           (snd (SQLiteBackup.Step Script.connections (-1)
                                   (Script.backup, Script.world [5])))))))
  = [11].
Proof.
  pose proof (Backup_finished_once Script.connections (-1) Script.backup Script.connection
                (Script.world [5])) as H.
  cbv zeta in H. destruct H as (_ & H & _); [reflexivity | discriminate | reflexivity |].
  exact H.
Defined.

(** ** Connections: construction *)

Lemma InternalOpen_run {E} {N : Engine E}
    (open : Buffer → M (World E) (Z * ptr)) (filename : Buffer)
    (self : SQLiteConnection.t) (w w1 : World E) (status : Z) (db : ptr) :
  open filename w = (Return (status, db), w1) →
  SQLiteConnection.InternalOpen open filename (self, w) =
  if status =? SQLITE_OK
  then (Return tt,
        ({| SQLiteConnection.m_Handle := {| SQLiteHandle.m_value := db |} |},
         closed sqlite3_close ev_close (SQLiteConnection.GetAbi self) w1))
  else (Throw {| ErrorCode := sqlite3_extended_errcode db (engine w1);
                 ErrorMessage := sqlite3_errmsg db (engine w1) |},
        (self,
         closed sqlite3_close ev_close db
           {| engine := engine w1;
              trace := trace w1 ++ [ev_extended_errcode db; ev_errmsg db] |})).
Proof.
  intros Hopen.
  unfold SQLiteConnection.InternalOpen, scoped. run. rewrite Hopen. run.
  unfold SQLiteConnection.on_handle, SQLiteHandle.Set_. run.
  rewrite (Z.eqb_sym SQLITE_OK).
  destruct (status =? SQLITE_OK); cbn [negb].
  - unfold SQLiteConnection.swap_with_temp, SQLiteHandle.swap. run.
    unfold noexcept. rewrite Connection_destroy_run. unfold closed.
    destruct self as [[p]]. cbn. destruct (p =? nullptr); reflexivity.
  - unfold SQLiteConnection.ThrowLastError. run.
    unfold noexcept. rewrite Connection_destroy_run. unfold closed. cbn.
    destruct (db =? nullptr); reflexivity.
Qed.

Lemma construct_by_open {E} {N : Engine E}
    (open : Buffer → M (World E) (Z * ptr)) (filename : Buffer)
    (w w1 : World E) (status : Z) (db : ptr) :
  open filename w = (Return (status, db), w1) →
  constructing SQLiteConnection.default SQLiteConnection.destroy
    (SQLiteConnection.InternalOpen open filename) w =
  if status =? SQLITE_OK
  then (Return {| SQLiteConnection.m_Handle := {| SQLiteHandle.m_value := db |} |}, w1)
  else (Throw {| ErrorCode := sqlite3_extended_errcode db (engine w1);
                 ErrorMessage := sqlite3_errmsg db (engine w1) |},
        closed sqlite3_close ev_close db
          {| engine := engine w1;
             trace := trace w1 ++ [ev_extended_errcode db; ev_errmsg db] |}).
Proof.
  intros Hopen. unfold constructing. rewrite (InternalOpen_run _ _ _ _ _ _ _ Hopen).
  destruct (status =? SQLITE_OK).
  - cbn. destruct w1; reflexivity.
  - unfold noexcept. rewrite Connection_destroy_run. cbn. reflexivity.
Qed.

(** X9. Constructing a connection from a file name, and [Memory] and
    [WideMemory], which construct it from [":memory:"] in narrow and in
    wide characters.  When the native open returns [SQLITE_OK] the
    connection holds the pointer the engine stored and the open is the
    only native call made; otherwise no connection comes out: the error
    read from the stored pointer is thrown and that pointer, unless null,
    has been closed. *)
Theorem connection_constructed_or_closed {E} {N : Engine E} {P : Platform}
    (filename : Buffer) (w : World E) :
  let constructed (ev : Event) (reply : Z * ptr * E) : Outcome SQLiteConnection.t * World E :=
    let status := fst (fst reply) in
    let db := snd (fst reply) in
    let e1 := snd reply in
    if status =? SQLITE_OK
    then (Return {| SQLiteConnection.m_Handle := {| SQLiteHandle.m_value := db |} |},
          {| engine := e1; trace := trace w ++ [ev] |})
    else (Throw {| ErrorCode := sqlite3_extended_errcode db e1;
                   ErrorMessage := sqlite3_errmsg db e1 |},
          closed sqlite3_close ev_close db
            {| engine := e1;
               trace := trace w ++ [ev; ev_extended_errcode db; ev_errmsg db] |}) in
  SQLiteConnection_construct filename w
    = constructed (ev_open filename) (sqlite3_open filename (engine w)) ∧
  SQLiteConnection_construct16 filename w
    = constructed (ev_open16 filename) (sqlite3_open16 filename (engine w)) ∧
  Memory w = constructed (ev_open (literal 1 ":memory:"))
               (sqlite3_open (literal 1 ":memory:") (engine w)) ∧
  WideMemory w = constructed (ev_open16 (literal sizeof_wchar_t ":memory:"))
                   (sqlite3_open16 (literal sizeof_wchar_t ":memory:") (engine w)).
Proof.
  cbv beta zeta.
  assert (Hnarrow : ∀ name,
    SQLiteConnection.native_open name w =
    (Return (fst (fst (sqlite3_open name (engine w))), snd (fst (sqlite3_open name (engine w)))),
     {| engine := snd (sqlite3_open name (engine w)); trace := trace w ++ [ev_open name] |})).
  { intros name. unfold SQLiteConnection.native_open. rewrite call_run.
    destruct (sqlite3_open name (engine w)) as [[? ?] ?]. reflexivity. }
  assert (Hwide : ∀ name,
    SQLiteConnection.native_open16 name w =
    (Return (fst (fst (sqlite3_open16 name (engine w))),
             snd (fst (sqlite3_open16 name (engine w)))),
     {| engine := snd (sqlite3_open16 name (engine w));
        trace := trace w ++ [ev_open16 name] |})).
  { intros name. unfold SQLiteConnection.native_open16. rewrite call_run.
    destruct (sqlite3_open16 name (engine w)) as [[? ?] ?]. reflexivity. }
  unfold Memory, WideMemory, SQLiteConnection_construct, SQLiteConnection_construct16,
    SQLiteConnection.Open, SQLiteConnection.Open16.
  rewrite !(construct_by_open _ _ _ _ _ _ (Hnarrow _)).
  rewrite !(construct_by_open _ _ _ _ _ _ (Hwide _)).
  cbn [engine trace]. rewrite <- !app_assoc. repeat split.
Qed.

(** ** Walking the rows: the native calls made *)

Section Steps.
Context {E : Type} {N : Engine E} {R : Type}.
Variable statements : gmap Z SQLiteStatement.t.
Variable body : ptr → E → R.

Lemma step_loop_steps (s : SQLiteStatement.t) (fuel : nat) :
  ∀ (rows0 rows : list R) (w w' : World E),
    step_loop body fuel s (rows0, w) = Some (Return tt, (rows, w')) →
    (length rows0 ≤ length rows)%nat ∧
    trace w' = trace w ++ replicate (S (length rows - length rows0))
                            (ev_step (SQLiteStatement.GetAbi s)).
Proof.
  induction fuel as [|fuel IH]; intros rows0 rows w w'; [discriminate|].
  rewrite step_loop_S, Statement_Step_run. cbv zeta. cbn [fst snd].
  destruct (_ =? SQLITE_ROW).
  - unfold visited. cbn [fst snd engine]. intros Hloop.
    apply IH in Hloop. destruct Hloop as [Hlen Htrace].
    rewrite length_app in Hlen. cbn [length] in Hlen.
    rewrite length_app in Htrace. cbn [length trace] in Htrace.
    split; [lia|]. rewrite Htrace, <- app_assoc. f_equal.
    replace (length rows - length rows0)%nat
      with (S (length rows - (length rows0 + 1)))%nat by lia.
    reflexivity.
  - destruct (_ =? SQLITE_DONE).
    + intros [= <- <-]. split; [lia|]. rewrite Nat.sub_diag. reflexivity.
    + rewrite Statement_ThrowLastError_run. discriminate.
Qed.

Lemma range_for_contained (statement : ptr) (s : SQLiteStatement.t) (fuel : nat)
    (st : list R * World E) :
  statement ≠ nullptr → statements !! statement = Some s →
  range_for statements body fuel statement st = contained (step_loop body fuel s st).
Proof.
  intros Hp Hs. destruct fuel as [|fuel]; [reflexivity|].
  rewrite step_loop_S. cbn [range_for]. unfold lift, zoom.
  cbn [the_world set_world world_behind world_itself fst snd].
  rewrite (begin_run _ _ _ _ Hp Hs).
  destruct (SQLiteStatement.Step s (snd st)) as [[[]| | |] w']; cbn; try reflexivity.
  - apply (range_for_from_as_step_loop _ _ _ _ Hp Hs).
  - destruct fuel; reflexivity.
Qed.

(** X10. A range-based [for] over a statement that runs to its end makes
    one [sqlite3_step] call more than the rows it visits, all on the
    statement's native pointer, and no other native call: it neither
    resets nor finalizes the statement.  The rows visited are added after
    those there were. *)
Theorem range_for_steps_once_per_row (statement : ptr) (s : SQLiteStatement.t)
    (fuel : nat) (rows0 rows : list R) (w w' : World E) :
  statement ≠ nullptr → statements !! statement = Some s →
  range_for statements body fuel statement (rows0, w) = Some (Return tt, (rows, w')) →
  (length rows0 ≤ length rows)%nat ∧
  since w w' = replicate (S (length rows - length rows0))
                 (ev_step (SQLiteStatement.GetAbi s)).
Proof.
  intros Hp Hs. rewrite (range_for_contained _ _ _ _ Hp Hs). unfold contained.
  destruct (step_loop body fuel s (rows0, w)) as [[o st']|] eqn:Hloop; [|discriminate].
  cbn. destruct o; cbn; try discriminate. destruct a. intros [= ->].
  apply step_loop_steps in Hloop. destruct Hloop as [Hlen Htrace].
  split; [exact Hlen|]. apply since_app. exact Htrace.
Qed.

End Steps.

Lemma range_for_steps_once_per_row_witness :
  since (Script.world [100; 100; 101])
    {| engine := {| Script.replies := []; Script.made := 7; Script.left := 0;
                    Script.session := 3; Script.code := 1; Script.message := "error";
                    Script.bytes := 0; Script.bytes16 := 0; Script.steps := 3 |};
       trace := [ev_step 9; ev_step 9; ev_step 9] |}
  = replicate 3 (ev_step 9).
Proof.
  pose proof (range_for_steps_once_per_row Script.statements Script.first_column 40
                Script.statement 5 [] [10; 20] (Script.world [100; 100; 101])
                {| engine := {| Script.replies := []; Script.made := 7; Script.left := 0;
                                Script.session := 3; Script.code := 1;
                                Script.message := "error"; Script.bytes := 0;
                                Script.bytes16 := 0; Script.steps := 3 |};
                   trace := [ev_step 9; ev_step 9; ev_step 9] |}) as H.
  destruct H as (_ & H); [discriminate | reflexivity | vm_compute; reflexivity |].
  exact H.
Defined.

(** ** The free function [Execute] *)

Section Executing.
Context {E : Type} {N : Engine E} {P : Platform}.

Lemma ThrowLastError_keeps_statements {A} (self : SQLiteStatement.t) :
  keeps_statements (SQLiteStatement.ThrowLastError (A := A) self).
Proof.
  intros w. rewrite Statement_ThrowLastError_run. cbv zeta.
  eexists. cbn [fst snd trace]. split; [reflexivity|]. split; [reflexivity|].
  right. eexists. reflexivity.
Qed.

Lemma bind_pack_keeps_statements (self : SQLiteStatement.t) (values : list BindValue) :
  ∀ Index, keeps_statements (SQLiteStatement.bind_pack self Index values).
Proof.
  induction values as [|value rest IH]; intros Index w.
  - exists []. cbn. rewrite app_nil_r. split; [reflexivity|]. split; [reflexivity|].
    left. exists tt. reflexivity.
  - rewrite bind_pack_cons. cbv zeta. destruct (_ =? SQLITE_OK).
    + match goal with |- context [SQLiteStatement.bind_pack self (S Index) rest ?w1] =>
        destruct (IH (S Index) w1) as (events & Htrace & Hfin & Hout) end.
      cbn [trace] in Htrace. eexists. split; [|split; [|exact Hout]].
      * rewrite Htrace, <- app_assoc. reflexivity.
      * cbn. exact Hfin.
    + match goal with |- context [SQLiteStatement.ThrowLastError self ?w1] =>
        destruct (ThrowLastError_keeps_statements (A := unit) self w1)
          as (events & Htrace & Hfin & Hout) end.
      cbn [trace] in Htrace. eexists. split; [|split; [|exact Hout]].
      * rewrite Htrace, <- app_assoc. reflexivity.
      * cbn. exact Hfin.
Qed.

Lemma Step_keeps_statements (self : SQLiteStatement.t) :
  keeps_statements (SQLiteStatement.Step self).
Proof.
  intros w. rewrite Statement_Step_run. cbv zeta.
  destruct (_ =? SQLITE_ROW); [|destruct (_ =? SQLITE_DONE)].
  - eexists. cbn [fst snd trace]. split; [reflexivity|]. split; [reflexivity|].
    left. eexists. reflexivity.
  - eexists. cbn [fst snd trace]. split; [reflexivity|]. split; [reflexivity|].
    left. eexists. reflexivity.
  - match goal with |- context [SQLiteStatement.ThrowLastError self ?w1] =>
      destruct (ThrowLastError_keeps_statements (A := bool) self w1)
        as (events & Htrace & Hfin & Hout) end.
    cbn [trace] in Htrace. eexists. split; [|split; [|exact Hout]].
    + rewrite Htrace, <- app_assoc. reflexivity.
    + cbn. exact Hfin.
Qed.

Lemma Prepare_run (connection : SQLiteConnection.t) (text : Buffer)
    (values : list BindValue) (self0 : SQLiteStatement.t) (w : World E) :
  let db := SQLiteConnection.GetAbi connection in
  let status := fst (fst (sqlite3_prepare_v2 db text (-1) (engine w))) in
  let stmt := snd (fst (sqlite3_prepare_v2 db text (-1) (engine w))) in
  let e1 := snd (sqlite3_prepare_v2 db text (-1) (engine w)) in
  let self := {| SQLiteStatement.m_Handle := {| SQLiteHandle.m_value := stmt |} |} in
  let w1 := {| engine := e1; trace := trace w ++ [ev_prepare_v2 db text (-1)] |} in
  SQLiteStatement.Prepare connection text values (self0, w) =
  if status =? SQLITE_OK
  then (fst (SQLiteStatement.BindAll self values w1),
        (self, snd (SQLiteStatement.BindAll self values w1)))
  else (Throw {| ErrorCode := sqlite3_extended_errcode db e1;
                 ErrorMessage := sqlite3_errmsg db e1 |},
        (self, {| engine := e1;
                  trace := trace w1 ++ [ev_extended_errcode db; ev_errmsg db] |})).
Proof.
  cbv zeta.
  unfold SQLiteStatement.Prepare, SQLiteStatement.InternalPrepare, SQLiteStatement.ASSERT,
    SQLiteStatement.native_prepare_v2.
  run. unfold SQLiteStatement.on_handle, SQLiteHandle.Set_. run.
  destruct (sqlite3_prepare_v2 _ _ _ _) as [[status stmt] e1]. cbn [fst snd].
  rewrite (Z.eqb_sym SQLITE_OK).
  destruct (status =? SQLITE_OK); cbn [negb].
  - run. destruct (SQLiteStatement.BindAll _ values _) as [o w2]. reflexivity.
  - unfold SQLiteConnection.ThrowLastError. run. reflexivity.
Qed.

(** X11. The free function [Execute] never leaves its statement behind.
    Whatever the engine answers (the prepare fails, a bind fails, the step
    fails, or all succeed) it returns or throws, and the statement pointer
    that the prepare stored, unless null, is finalized exactly once, by the
    last native call made; nothing else is finalized. *)
Theorem Execute_finalizes_once (connection : SQLiteConnection.t) (text : Buffer)
    (values : list BindValue) (w : World E) :
  let stmt := snd (fst (sqlite3_prepare_v2 (SQLiteConnection.GetAbi connection) text (-1)
                          (engine w))) in
  let r := Execute connection text values w in
  (fst r = Return tt ∨ ∃ e, fst r = Throw e) ∧
  ∃ events,
    since w (snd r) = events ++ (if stmt =? nullptr then [] else [ev_finalize stmt]) ∧
    finalized events = [].
Proof.
  cbv zeta.
  unfold Execute, bind, SQLiteStatement_construct, constructing.
  rewrite Prepare_run. cbv zeta.
  set (stmt := snd (fst (sqlite3_prepare_v2 _ _ _ _))).
  set (self := {| SQLiteStatement.m_Handle := {| SQLiteHandle.m_value := stmt |} |}).
  set (prepared := ev_prepare_v2 (SQLiteConnection.GetAbi connection) text (-1)).
  assert (Hclosed : ∀ (w0 : World E) events,
    trace w0 = trace w ++ events → finalized events = [] →
    ∃ events',
      since w (closed sqlite3_finalize ev_finalize stmt w0)
        = events' ++ (if stmt =? nullptr then [] else [ev_finalize stmt]) ∧
      finalized events' = []).
  { intros w0 events Htrace Hfin. exists events. split; [|exact Hfin].
    apply since_app. unfold closed. destruct (stmt =? nullptr).
    - rewrite app_nil_r. exact Htrace.
    - cbn [trace]. rewrite Htrace, <- app_assoc. reflexivity. }
  assert (Hdestroy : ∀ w0 : World E,
    noexcept SQLiteStatement.destroy (self, w0) =
    (Return tt, (self, closed sqlite3_finalize ev_finalize stmt w0))).
  { intros w0. unfold noexcept. rewrite Statement_destroy_run. reflexivity. }
  destruct (_ =? SQLITE_OK).
  - unfold SQLiteStatement.BindAll, SQLiteStatement.InternalBindCpp17.
    match goal with |- context [SQLiteStatement.bind_pack self 0 values ?w1] =>
      destruct (bind_pack_keeps_statements self values 0%nat w1)
        as (bound & Hbound & Hfin & Hout);
      destruct (SQLiteStatement.bind_pack self 0 values w1) as [o w2] end.
    cbn [fst snd trace] in Hbound, Hout.
    rewrite <- app_assoc in Hbound. cbn [app] in Hbound.
    destruct Hout as [[[] ->]|[e ->]]; cbn [fst snd].
    + unfold scoped, SQLiteStatement.Execute, bind, on_self, lift, zoom, get, ret.
      cbn [fst snd the_world set_world world_behind world_itself].
      destruct (Step_keeps_statements self w2) as (stepped & Hstepped & Hfin' & Hout).
      destruct (SQLiteStatement.Step self w2) as [o w3].
      cbn [fst snd] in Hstepped, Hout.
      assert (Hall : trace w3 = trace w ++ (prepared :: bound) ++ stepped).
      { rewrite Hstepped, Hbound, <- !app_assoc. reflexivity. }
      assert (Hnone : finalized ((prepared :: bound) ++ stepped) = []).
      { unfold finalized in *. rewrite omap_app. cbn. rewrite Hfin, Hfin'. reflexivity. }
      destruct Hout as [[b ->]|[e ->]]; rewrite Hdestroy; cbn [fst snd];
        (split; [eauto | exact (Hclosed _ _ Hall Hnone)]).
    + rewrite Hdestroy. cbn [fst snd]. split; [eauto|].
      apply (Hclosed w2 (prepared :: bound)); [exact Hbound|]. cbn. exact Hfin.
  - rewrite Hdestroy. cbn [fst snd]. split; [eauto|].
    match goal with |- context [closed _ _ stmt ?w0] =>
      apply (Hclosed w0 [prepared; ev_extended_errcode (SQLiteConnection.GetAbi connection);
                         ev_errmsg (SQLiteConnection.GetAbi connection)]) end.
    + cbn [trace]. rewrite <- app_assoc. reflexivity.
    + reflexivity.
Qed.

(** X12. [Prepare] whose first bind fails.  When the native prepare
    returns [SQLITE_OK] and the engine refuses the first value, [Prepare]
    throws the error of the connection that [sqlite3_db_handle] names for
    the new statement, not one read from the connection it was given; it
    binds no further value, and it leaves the statement holding the
    prepared handle, which it does not finalize. *)
Theorem Prepare_with_failing_bind (connection : SQLiteConnection.t) (text : Buffer)
    (value : BindValue) (rest : list BindValue) (self0 : SQLiteStatement.t) (w : World E) :
  32 ≤ size_t_bits →
  let db := SQLiteConnection.GetAbi connection in
  let stmt := snd (fst (sqlite3_prepare_v2 db text (-1) (engine w))) in
  let e1 := snd (sqlite3_prepare_v2 db text (-1) (engine w)) in
  let e2 := snd (sqlite3_bind stmt 1 (native_arg value) e1) in
  let owner := sqlite3_db_handle stmt e2 in
  fst (fst (sqlite3_prepare_v2 db text (-1) (engine w))) = SQLITE_OK →
  fst (sqlite3_bind stmt 1 (native_arg value) e1) ≠ SQLITE_OK →
  SQLiteStatement.Prepare connection text (value :: rest) (self0, w) =
  (Throw {| ErrorCode := sqlite3_extended_errcode owner e2;
            ErrorMessage := sqlite3_errmsg owner e2 |},
   ({| SQLiteStatement.m_Handle := {| SQLiteHandle.m_value := stmt |} |},
    {| engine := e2;
       trace := trace w ++ [ev_prepare_v2 db text (-1);
                            ev_bind stmt 1 (native_arg value);
                            ev_db_handle stmt;
                            ev_extended_errcode owner;
                            ev_errmsg owner] |})).
Proof.
  intros Hbits. cbv zeta. intros Hprepared Hbind.
  rewrite Prepare_run. cbv zeta. rewrite Hprepared. cbn [Z.eqb SQLITE_OK].
  change (0 =? 0) with true. cbv iota.
  unfold SQLiteStatement.BindAll, SQLiteStatement.InternalBindCpp17.
  rewrite bind_pack_cons. cbv zeta.
  change (Z.of_nat 0 + 1) with 1. rewrite (position_in_range 1) by lia.
  cbn [engine trace SQLiteStatement.GetAbi SQLiteStatement.m_Handle SQLiteHandle.Get
       SQLiteHandle.m_value].
  destruct (Z.eqb_spec (fst (sqlite3_bind
              (snd (fst (sqlite3_prepare_v2 (SQLiteConnection.GetAbi connection) text (-1)
                           (engine w))))
              1 (native_arg value)
              (snd (sqlite3_prepare_v2 (SQLiteConnection.GetAbi connection) text (-1)
                      (engine w))))) SQLITE_OK) as [Hok|_]; [contradiction|].
  rewrite Statement_ThrowLastError_run. cbv zeta.
  cbn [fst snd engine trace SQLiteStatement.GetAbi SQLiteStatement.m_Handle SQLiteHandle.Get
       SQLiteHandle.m_value].
  rewrite <- !app_assoc. reflexivity.
Qed.

End Executing.

Lemma Prepare_with_failing_bind_witness :
  SQLiteStatement.Prepare (P := Script.platform 2) Script.connection
    (literal 1 "SELECT ?") [int32_value 42; int32_value 43]
    (SQLiteStatement.default, Script.world [0; 25])
  = (Throw {| ErrorCode := 1; ErrorMessage := "error" |},
     ({| SQLiteStatement.m_Handle := {| SQLiteHandle.m_value := 7 |} |},
      {| engine := Script.start nullptr [];
         trace := [ev_prepare_v2 5 (literal 1 "SELECT ?") (-1);
                   ev_bind 7 1 (bind_int 42); ev_db_handle 7;
                   ev_extended_errcode 3; ev_errmsg 3] |})).
Proof.
  pose proof (Prepare_with_failing_bind (P := Script.platform 2) Script.connection
                (literal 1 "SELECT ?") (int32_value 42) [int32_value 43]
                SQLiteStatement.default (Script.world [0; 25])) as H.
  cbv zeta in H. apply H; [discriminate | reflexivity | discriminate].
Defined.
